(** * crudtastic: the generic route handlers of [lib/route-handlers.js]

    A shallow embedding of the handler hierarchy
    ([GenericRouteHandler] and its subclasses) and of the lifecycle the
    resource router runs them through, followed by the properties the
    specification states about them.

    Conventions
    - A JavaScript object is a finite map from property names to values,
      stored in a heap and named by a location, so that two references to
      one object see each other's writes.
    - A promise is represented by the way it settles ([Resolved] or
      [Rejected]); a method either returns a promise or throws
      synchronously.
    - The Bookshelf model ([this.Model]), the logger and the URL builder are
      injected collaborators: the model is an interface ([DataModel]) over a
      state of its own, every call issued to it is appended to a trace. *)

From Stdlib Require Import ZArith Ascii String List.
From stdpp Require Import base option gmap strings pretty list fin_maps.

Local Open Scope string_scope.
Local Open Scope Z_scope.

(** ** JavaScript values and the object heap *)

Definition loc := positive.

(** A handle on an object owned by the data-model layer (a Bookshelf model
    or collection). *)
Definition inst := positive.

Inductive value : Type :=
  | VUndefined
  | VNull
  | VBool (b : bool)
  | VNum (n : Z)
  | VStr (s : string)
  | VRef (l : loc)          (* a plain object living in the heap *)
  | VModel (i : inst)       (* an object of the data-model layer *)
  | VError (msg : string)   (* new Error(msg) *)
  | VTypeError.             (* the TypeError of a call on a non-object *)

Global Instance value_eq_dec : EqDecision value.
Proof. solve_decision. Defined.

Abbreviation obj := (gmap string value).
Abbreviation heap_t := (gmap loc obj).

(** ToBoolean, as applied by the conditional operator. *)
Definition truthy (v : value) : bool :=
  match v with
  | VUndefined | VNull => false
  | VBool b => b
  | VNum n => negb (n =? 0)%Z
  | VStr s => negb (String.eqb s "")
  | VRef _ | VModel _ | VError _ | VTypeError => true
  end.

Module Heap.

(** [o.k] on an object reference: a missing property reads [undefined]. *)
Definition get (h : heap_t) (l : loc) (k : string) : value :=
  default VUndefined (default ∅ (h !! l) !! k).

(** [o.k = v]. *)
Definition set (h : heap_t) (l : loc) (k : string) (v : value) : heap_t :=
  <[l := <[k := v]> (default ∅ (h !! l))]> h.

(** [delete o.k]. *)
Definition del (h : heap_t) (l : loc) (k : string) : heap_t :=
  <[l := delete k (default ∅ (h !! l))]> h.

(** A fresh object with the given own properties. *)
Definition alloc (h : heap_t) (o : obj) : loc * heap_t :=
  let l := fresh (dom h) in (l, <[l := o]> h).

(** The own properties of the object behind a reference that may be
    [undefined] (read as having none). *)
Definition props (h : heap_t) (src : option loc) : obj :=
  match src with
  | Some l => default ∅ (h !! l)
  | None => ∅
  end.

(** An object passed as an argument, as the callee reads it. *)
Definition arg (h : heap_t) (src : option loc) : option obj :=
  (λ l, default ∅ (h !! l)) <$> src.

(** [{ ...src }]: a fresh object holding the own properties of [src]. *)
Definition spread (h : heap_t) (src : option loc) : loc * heap_t :=
  alloc h (props h src).

End Heap.

(** ** Promises and completions *)

Inductive promise (A : Type) : Type :=
  | Resolved (a : A)
  | Rejected (e : value).
Arguments Resolved {A} a.
Arguments Rejected {A} e.

(** What a call of a method yields: the promise it returns, or the error it
    throws before returning one. *)
Inductive completion (A : Type) : Type :=
  | Returns (p : promise A)
  | Throws (e : value).
Arguments Returns {A} p.
Arguments Throws {A} e.

(** ** The response sink *)

Record response : Type := Response {
  status : Z;
  headers : gmap string string;
  body : value
}.

Module Res.

(** Modelled from the spec: the response sink ([this.res]) is not among the
    sources; the specification describes it as a builder-style response
    descriptor. [withStatus(code)] sets the status. *)
Definition withStatus (code : Z) (r : response) : response :=
  {| status := code; headers := headers r; body := body r |}.

(** Modelled from the spec: [withHeader(name, value)] of the response sink,
    which adds one header to the descriptor. *)
Definition withHeader (name val : string) (r : response) : response :=
  {| status := status r; headers := <[name := val]> (headers r); body := body r |}.

(** Modelled from the spec: [withBody(body)] of the response sink. *)
Definition withBody (b : value) (r : response) : response :=
  {| status := status r; headers := headers r; body := b |}.

(** Modelled from the spec: [ok(body?)] of the response sink, the success
    response (200) carrying the body; [ok()] carries [undefined]. *)
Definition ok (b : value) (r : response) : response :=
  withStatus 200 (withBody b r).

(** Modelled from the spec: [notFound()] of the response sink, the 404
    response. *)
Definition notFound (r : response) : response :=
  withStatus 404 r.

End Res.

(** What a handler's promise resolves with: a plain value ([null],
    [undefined]) or a response built from the sink. *)
Inductive answer : Type :=
  | Val (v : value)
  | Resp (r : response).

(** ** The data model

    [this.Model] is a Bookshelf model class. The handlers use the
    operations below; each acts on the state of the data-model layer
    ([store]) and the asynchronous ones say how their promise settles. The
    model reads the objects it is passed and does not write to them, so
    it is handed their properties. *)

Class DataModel : Type := {
  store : Type;
  (* Model.fetchAll() *)
  fetchAll : store → promise value * store;
  (* new Model(attrs); new Model() and new Model(undefined) give None *)
  construct : option obj → store → inst * store;
  (* m.fetch() *)
  fetch : inst → store → promise value * store;
  (* m.where(column, v), chainable *)
  where_ : inst → string → value → store → inst * store;
  (* m.count() *)
  count : inst → store → promise value * store;
  (* m.set(attrs), chainable *)
  set : inst → obj → store → inst * store;
  (* m.save(attrs, options); attrs is null (None) or an object *)
  save : inst → option obj → obj → store → promise value * store;
  (* m.destroy(options) *)
  destroy : inst → obj → store → promise value * store
}.

(** The calls a handler issues to the data model, in the order issued. *)
Inductive call : Type :=
  | CallFetchAll
  | CallNew (attrs : option obj)
  | CallFetch (m : inst)
  | CallWhere (m : inst) (column : string) (v : value)
  | CallCount (m : inst)
  | CallSet (m : inst) (attrs : obj)
  | CallSave (m : inst) (attrs : option obj) (options : obj)
  | CallDestroy (m : inst) (options : obj).

(** The calls that write to the database, and the options they carry. *)
Definition mutating (c : call) : bool :=
  match c with
  | CallSave _ _ _ | CallDestroy _ _ => true
  | _ => false
  end.

Definition options_of (c : call) : obj :=
  match c with
  | CallSave _ _ o | CallDestroy _ o => o
  | _ => ∅
  end.

(** A call takes part in the transaction [tx] when [tx] is its
    [transacting] option. *)
Definition transacting (tx : value) (c : call) : Prop :=
  options_of c !! "transacting" = Some tx.

(** ** The class hierarchy *)

Inductive class : Type :=
  | GenericRouteHandler
  | IndexRouteHandler
  | CreateRouteHandler
  | ExistingResourceRouteHandler
  | ShowRouteHandler
  | ExistsRouteHandler
  | UpdateRouteHandler
  | DestroyRouteHandler.

Global Instance class_eq_dec : EqDecision class.
Proof. solve_decision. Defined.

(** [class C extends P]. *)
Definition extends (c : class) : option class :=
  match c with
  | GenericRouteHandler => None
  | IndexRouteHandler => Some GenericRouteHandler
  | CreateRouteHandler => Some GenericRouteHandler
  | ExistingResourceRouteHandler => Some GenericRouteHandler
  | ShowRouteHandler => Some ExistingResourceRouteHandler
  | ExistsRouteHandler => Some GenericRouteHandler
  | UpdateRouteHandler => Some ExistingResourceRouteHandler
  | DestroyRouteHandler => Some ExistingResourceRouteHandler
  end.

(** [this.constructor.name]. *)
Definition constructor_name (c : class) : string :=
  match c with
  | GenericRouteHandler => "GenericRouteHandler"
  | IndexRouteHandler => "IndexRouteHandler"
  | CreateRouteHandler => "CreateRouteHandler"
  | ExistingResourceRouteHandler => "ExistingResourceRouteHandler"
  | ShowRouteHandler => "ShowRouteHandler"
  | ExistsRouteHandler => "ExistsRouteHandler"
  | UpdateRouteHandler => "UpdateRouteHandler"
  | DestroyRouteHandler => "DestroyRouteHandler"
  end.

(** Method lookup along the prototype chain: the class's own definition
    when it has one, else its parent's; [base] is the definition of the
    root class. The chain is at most two links long. *)
Fixpoint resolve {A : Type} (own : class → option A) (base : A)
    (depth : nat) (c : class) : A :=
  match own c with
  | Some m => m
  | None =>
      match depth, extends c with
      | S d, Some p => resolve own base d p
      | _, _ => base
      end
  end.

(** The class whose definition [resolve] selects. *)
Fixpoint definer {A : Type} (own : class → option A) (depth : nat) (c : class)
    : class :=
  match own c with
  | Some _ => c
  | None =>
      match depth, extends c with
      | S d, Some p => definer own d p
      | _, _ => GenericRouteHandler
      end
  end.

(** The classes below [ExistingResourceRouteHandler]. *)
Fixpoint derives (depth : nat) (anc c : class) : bool :=
  bool_decide (c = anc) ||
  match depth, extends c with
  | S d, Some p => derives d anc p
  | _, _ => false
  end.

Definition existing_resource (c : class) : bool :=
  derives 2 ExistingResourceRouteHandler c.

(** ** Handlers *)

Section Handlers.

Context `{DataModel}.

(** The injected URL builder; it may read the resource it is given. *)
Variable urlFor : store → value → string.

(** Everything a request can touch besides the handler itself: the object
    heap, the state of the data-model layer, the calls issued to it and
    what went to the injected logger ([this.log]). *)
Record world : Type := World {
  heap : heap_t;
  db : store;
  calls : list call;
  logged : list (value * string)
}.

(** The fields of a handler ([this]). [params] and [_tx] are not set by
    the constructor, so they start out [undefined]. The parameters are the
    object the router passes in; the context is the request's shared bag. *)
Record handler : Type := Handler {
  cls : class;
  ctx : loc;
  res : response;
  params : option loc;
  _tx : value
}.

(** [new C({ ctx, res, Model, log, urlFor })]. *)
Definition new (c : class) (ctx0 : loc) (res0 : response) : handler :=
  {| cls := c; ctx := ctx0; res := res0; params := None; _tx := VUndefined |}.

Definition with_heap (hp : heap_t) (w : world) : world :=
  {| heap := hp; db := db w; calls := calls w; logged := logged w |}.

(** One call to the data model: it is recorded, and the model's state
    moves on. *)
Definition issue {A : Type} (c : call) (op : store → A * store) (w : world)
    : A * world :=
  let '(a, s) := op (db w) in
  (a, {| heap := heap w; db := s; calls := calls w ++ [c]; logged := logged w |}).

(** [this.log(err, color)]. *)
Definition log (err : value) (color : string) (w : world) : world :=
  {| heap := heap w; db := db w; calls := calls w;
     logged := logged w ++ [(err, color)] |}.

(** [p.then(f)] and [p.catch(g)] on a settled promise, for callbacks that
    return a plain value. *)
Definition then_ {A B : Type} (p : promise A) (f : A → world → B * world)
    (w : world) : promise B * world :=
  match p with
  | Resolved a => let '(b, w') := f a w in (Resolved b, w')
  | Rejected e => (Rejected e, w)
  end.

Definition catch_ {A : Type} (p : promise A) (g : value → world → A * world)
    (w : world) : promise A * world :=
  match p with
  | Resolved a => (Resolved a, w)
  | Rejected e => let '(a, w') := g e w in (Resolved a, w')
  end.

(** *** GenericRouteHandler *)

Definition own_requiresTransaction (c : class) : option bool :=
  match c with
  | GenericRouteHandler => Some false
  | CreateRouteHandler => Some true
  | UpdateRouteHandler => Some true
  | DestroyRouteHandler => Some true
  | _ => None
  end.

(** The [requiresTransaction] getter. *)
Definition requiresTransaction (h : handler) : bool :=
  resolve own_requiresTransaction false 2 (cls h).

Definition useTransaction (h : handler) (tx : value) : handler :=
  {| cls := cls h; ctx := ctx h; res := res h; params := params h; _tx := tx |}.

Definition GenericRouteHandler_processParams (h : handler) (p : loc) (w : world)
    : completion answer * handler * world :=
  let h' := {| cls := cls h; ctx := ctx h; res := res h;
               params := Some p; _tx := _tx h |} in
  (Returns (Resolved (Val VNull)), h', w).

Definition GenericRouteHandler_handle (h : handler) (w : world)
    : completion answer * world :=
  (Throws (VError (constructor_name (cls h) ++ " did not implement handle()")), w).

(** *** IndexRouteHandler *)

Definition IndexRouteHandler_handle (h : handler) (w : world)
    : completion answer * world :=
  let '(all, w1) := issue CallFetchAll fetchAll w in
  let '(r, w2) :=
    then_ all (λ collection w, (Resp (Res.ok collection (res h)), w)) w1 in
  (Returns r, w2).

(** *** CreateRouteHandler *)

Definition CreateRouteHandler_handle (h : handler) (w : world)
    : completion answer * world :=
  let attrs := Heap.arg (heap w) (params h) in
  let '(m, w1) := issue (CallNew attrs) (construct attrs) w in
  let options : obj := {[ "transacting" := _tx h ]} in
  let '(s, w2) := issue (CallSave m (Some ∅) options) (save m (Some ∅) options) w1 in
  let '(r, w3) :=
    then_ s (λ saved w,
      (Resp (Res.withStatus 201
              (Res.withBody saved
                (Res.withHeader "Location" (urlFor (db w) saved) (res h)))), w))
      w2 in
  (Returns r, w3).

(** *** ExistingResourceRouteHandler *)

Definition ExistingResourceRouteHandler_processParams
    (h : handler) (p : loc) (w : world) : completion answer * handler * world :=
  let '(_, h1, w1) := GenericRouteHandler_processParams h p w in
  let attrs : obj := {[ "id" := Heap.get (heap w1) p "id" ]} in
  let '(m, w2) := issue (CallNew (Some attrs)) (construct (Some attrs)) w1 in
  let '(f, w3) := issue (CallFetch m) (fetch m) w2 in
  let '(t, w4) :=
    then_ f (λ r w,
      (Val VUndefined, with_heap (Heap.set (heap w) (ctx h1) "resource" r) w))
      w3 in
  let '(c, w5) :=
    catch_ t (λ err w, (Resp (Res.notFound (res h1)), log err "red" w)) w4 in
  (Returns c, h1, w5).

(** The [resource] getter. *)
Definition resource (h : handler) (w : world) : value :=
  Heap.get (heap w) (ctx h) "resource".

(** *** ShowRouteHandler *)

Definition ShowRouteHandler_handle (h : handler) (w : world)
    : completion answer * world :=
  (Returns (Resolved (Resp (Res.ok (resource h w) (res h)))), w).

(** *** ExistsRouteHandler *)

Definition ExistsRouteHandler_processParams
    (h : handler) (p : loc) (w : world) : completion answer * handler * world :=
  let '(m, w1) := issue (CallNew None) (construct None) w in
  let id := Heap.get (heap w1) p "id" in
  let '(q, w2) := issue (CallWhere m "id" id) (where_ m "id" id) w1 in
  let '(n, w3) := issue (CallCount q) (count q) w2 in
  let '(r, w4) :=
    then_ n (λ count w,
      (if truthy count
       then Resp (Res.ok VUndefined (res h))
       else Resp (Res.notFound (res h)), w))
      w3 in
  (Returns r, h, w4).

Definition ExistsRouteHandler_handle (h : handler) (w : world)
    : completion answer * world :=
  (Returns (Resolved (Resp (Res.ok VUndefined (res h)))), w).

(** *** UpdateRouteHandler *)

Definition UpdateRouteHandler_handle (h : handler) (w : world)
    : completion answer * world :=
  let '(safeParams, hp) := Heap.spread (heap w) (params h) in
  let w1 := with_heap (Heap.del hp safeParams "id") w in
  match resource h w1 with
  | VModel this_resource =>
      let attrs := Heap.props (heap w1) (Some safeParams) in
      let '(m, w2) := issue (CallSet this_resource attrs) (set this_resource attrs) w1 in
      let options : obj := {[ "transacting" := _tx h ]} in
      let '(s, w3) := issue (CallSave m None options) (save m None options) w2 in
      let '(r, w4) := then_ s (λ r w, (Resp (Res.ok r (res h)), w)) w3 in
      (Returns r, w4)
  | _ => (Throws VTypeError, w1)
  end.

(** The heap once [safeParams] is built and its [id] deleted. *)
Definition update_heap (h : handler) (w : world) : heap_t :=
  Heap.del (Heap.spread (heap w) (params h)).2
           (Heap.spread (heap w) (params h)).1 "id".

(** *** DestroyRouteHandler *)

Definition DestroyRouteHandler_handle (h : handler) (w : world)
    : completion answer * world :=
  match resource h w with
  | VModel this_resource =>
      let options : obj := {[ "transacting" := _tx h ]} in
      let '(d, w1) :=
        issue (CallDestroy this_resource options) (destroy this_resource options) w in
      let '(r, w2) := then_ d (λ _ w, (Resp (Res.ok VUndefined (res h)), w)) w1 in
      (Returns r, w2)
  | _ => (Throws VTypeError, w)
  end.

(** *** Dynamic dispatch *)

Definition own_processParams (c : class)
    : option (handler → loc → world → completion answer * handler * world) :=
  match c with
  | GenericRouteHandler => Some GenericRouteHandler_processParams
  | ExistingResourceRouteHandler => Some ExistingResourceRouteHandler_processParams
  | ExistsRouteHandler => Some ExistsRouteHandler_processParams
  | _ => None
  end.

Definition own_handle (c : class)
    : option (handler → world → completion answer * world) :=
  match c with
  | GenericRouteHandler => Some GenericRouteHandler_handle
  | IndexRouteHandler => Some IndexRouteHandler_handle
  | CreateRouteHandler => Some CreateRouteHandler_handle
  | ExistingResourceRouteHandler => None
  | ShowRouteHandler => Some ShowRouteHandler_handle
  | ExistsRouteHandler => Some ExistsRouteHandler_handle
  | UpdateRouteHandler => Some UpdateRouteHandler_handle
  | DestroyRouteHandler => Some DestroyRouteHandler_handle
  end.

(** A handler overrides [handle] when the lookup does not end in the root
    class. *)
Definition overrides_handle (c : class) : bool :=
  negb (bool_decide (definer own_handle 2 c = GenericRouteHandler)).

(** [h.processParams(params)] and [h.handle()]. *)
Definition processParams (h : handler) (p : loc) (w : world)
    : completion answer * handler * world :=
  resolve own_processParams GenericRouteHandler_processParams 2 (cls h) h p w.

Definition handle (h : handler) (w : world) : completion answer * world :=
  resolve own_handle GenericRouteHandler_handle 2 (cls h) h w.

(** *** The dispatcher *)

Inductive result : Type :=
  | Done (a : answer)
  | Failed (e : value).

Inductive tx_end : Type :=
  | NoTransaction
  | Committed
  | RolledBack.

Record dispatched : Type := Dispatched {
  outcome : result;
  handle_calls : nat;
  transaction : tx_end;
  final_handler : handler;
  final_world : world
}.

Definition close_tx (h : handler) (failed : bool) : tx_end :=
  if requiresTransaction h
  then (if failed then RolledBack else Committed)
  else NoTransaction.

(** Modelled from the spec: the resource router that drives a handler is
    not among the sources. Its contract: construct the handler, call
    [processParams(params)], if [requiresTransaction] is true open a
    transaction and call [useTransaction(tx)], stop if [processParams]
    already produced a terminal response, else call [handle()]; commit on
    success, roll back on any rejection from either step. *)
Definition dispatch (c : class) (ctx0 : loc) (res0 : response) (p : loc)
    (tx : value) (w : world) : dispatched :=
  let h0 := new c ctx0 res0 in
  let '(pp, h1, w1) := processParams h0 p w in
  let h2 := if requiresTransaction h1 then useTransaction h1 tx else h1 in
  match pp with
  | Returns (Resolved (Resp r)) =>
      Dispatched (Done (Resp r)) 0 (close_tx h2 false) h2 w1
  | Returns (Resolved (Val _)) =>
      let '(hd, w2) := handle h2 w1 in
      match hd with
      | Returns (Resolved a) => Dispatched (Done a) 1 (close_tx h2 false) h2 w2
      | Returns (Rejected e) | Throws e =>
          Dispatched (Failed e) 1 (close_tx h2 true) h2 w2
      end
  | Returns (Rejected e) | Throws e =>
      Dispatched (Failed e) 0 (close_tx h2 true) h2 w1
  end.

End Handlers.

Arguments world {_}.
Arguments dispatched {_}.

(** ** What the handlers rely on from Bookshelf

    [set] merges the given attributes into the model it is called on and
    returns that model; a [save] that succeeds resolves with the model it
    was called on and keeps every attribute the model had. *)
Class Bookshelf (M : DataModel) : Type := {
  attributes : store → inst → obj;
  set_merges : ∀ m a s m' s',
    set m a s = (m', s') → m' = m ∧ attributes s' m = a ∪ attributes s m;
  save_keeps : ∀ m o s r s',
    save m None o s = (Resolved r, s') →
    r = VModel m ∧ attributes s m ⊆ attributes s' m
}.

(** [new Model({ id }).fetch()] rejects when no record of the table has
    that id (Bookshelf's [require: true], its default for [fetch]). *)
Class FetchRequired (M : DataModel) : Type := {
  records : store → list obj;
  fetch_missing : ∀ id s m s1,
    construct (Some {[ "id" := id ]}) s = (m, s1) →
    Forall (λ row : obj, row !! "id" ≠ Some id) (records s) →
    ∃ e s2, fetch m s1 = (Rejected e, s2)
}.

(** ** A reference data model

    One table held in memory, with the Bookshelf behaviour the handlers are
    written against. It serves to run the handlers on concrete requests. *)
Module Mem.

Inductive object : Type :=
  | Model (attrs : obj) (filters : list (string * value))
  | Collection (models : list obj).

Record t : Type := Store {
  table : list obj;
  objects : gmap inst object;
  (* whether the database accepts writes *)
  writable : bool
}.

Definition attributes (s : t) (m : inst) : obj :=
  match objects s !! m with
  | Some (Model a _) => a
  | _ => ∅
  end.

Definition filters (s : t) (m : inst) : list (string * value) :=
  match objects s !! m with
  | Some (Model _ f) => f
  | _ => []
  end.

Definition put (m : inst) (o : object) (s : t) : t :=
  {| table := table s; objects := <[m := o]> (objects s);
     writable := writable s |}.

Definition with_table (rows : list obj) (s : t) : t :=
  {| table := rows; objects := objects s; writable := writable s |}.

Definition matches (row : obj) (f : string * value) : bool :=
  bool_decide (row !! f.1 = Some f.2).

Definition has_id (id : value) (row : obj) : bool :=
  matches row ("id", id).

Definition next_id (rows : list obj) : Z :=
  1 + fold_right Z.max 0
        (List.map (λ row : obj, match row !! "id" with
                                | Some (VNum n) => n
                                | _ => 0
                                end) rows).

Definition fetchAll (s : t) : promise value * t :=
  let c := fresh (dom (objects s)) in
  (Resolved (VModel c), put c (Collection (table s)) s).

Definition construct (a : option obj) (s : t) : inst * t :=
  let m := fresh (dom (objects s)) in
  (m, put m (Model (default ∅ a) []) s).

(** [fetch] looks for the first row that agrees with the attributes of
    the model; [require] says whether it rejects when there is none, or
    resolves with [null]. *)
Definition fetch (require : bool) (m : inst) (s : t) : promise value * t :=
  match List.find (λ row, forallb (matches row) (map_to_list (attributes s m)))
                  (table s) with
  | Some row =>
      (Resolved (VModel m), put m (Model (row ∪ attributes s m) (filters s m)) s)
  | None =>
      if require then (Rejected (VError "EmptyResponse"), s)
      else (Resolved VNull, s)
  end.

Definition where_ (m : inst) (column : string) (v : value) (s : t) : inst * t :=
  (m, put m (Model (attributes s m) (filters s m ++ [(column, v)])) s).

Definition count (m : inst) (s : t) : promise value * t :=
  (Resolved (VNum (Z.of_nat (length
     (List.filter (λ row, forallb (matches row) (filters s m)) (table s))))), s).

Definition set (m : inst) (a : obj) (s : t) : inst * t :=
  (m, put m (Model (a ∪ attributes s m) (filters s m)) s).

Definition save (m : inst) (a : option obj) (options : obj) (s : t)
    : promise value * t :=
  if writable s then
    let attrs := default ∅ a ∪ attributes s m in
    match attrs !! "id" with
    | Some id =>
        if existsb (has_id id) (table s) then
          (Resolved (VModel m),
           put m (Model attrs (filters s m))
             (with_table
                (List.map (λ row, if has_id id row then attrs else row) (table s)) s))
        else (Rejected (VError "No Rows Updated"), s)
    | None =>
        let attrs' := <["id" := VNum (next_id (table s))]> attrs in
        (Resolved (VModel m),
         put m (Model attrs' (filters s m)) (with_table (table s ++ [attrs']) s))
    end
  else (Rejected (VError "cannot execute in a read-only transaction"), s).

Definition destroy (m : inst) (options : obj) (s : t) : promise value * t :=
  if writable s then
    match attributes s m !! "id" with
    | Some id =>
        (Resolved (VModel m),
         put m (Model ∅ (filters s m))
           (with_table (List.filter (λ row, negb (has_id id row)) (table s)) s))
    | None => (Rejected (VError "No Rows Deleted"), s)
    end
  else (Rejected (VError "cannot execute in a read-only transaction"), s).

Definition model (require : bool) : DataModel :=
  Build_DataModel t fetchAll construct (fetch require) where_ count set save destroy.

(** [/things/<id>] for a saved model, by its [id] attribute. *)
Definition urlFor (s : t) (v : value) : string :=
  match v with
  | VModel m =>
      match attributes s m !! "id" with
      | Some (VNum n) => "/things/" ++ pretty n
      | _ => "/things/"
      end
  | _ => "/things/"
  end.

(** A table with two rows, and a request whose context object is empty. *)
Definition row (id a b : Z) : obj :=
  {[ "id" := VNum id; "a" := VNum a; "b" := VNum b ]}.

Definition two_rows : t :=
  {| table := [row 1 1 2; row 2 5 6]; objects := ∅; writable := true |}.

Definition sink : response :=
  {| status := 0; headers := ∅; body := VUndefined |}.

(** The heap of a request: the context object at 1, the parameters at 2. *)
Definition request (require : bool) (prm : obj) (s : t) : @world (model require) :=
  @World (model require) {[ 1%positive := ∅; 2%positive := prm ]} s [] [].

End Mem.

(** ** A data model whose counts are text

    The reference model, except that [count] resolves with the decimal
    text of the number, as the pg driver hands a bigint over when
    [parseInt8] is off. *)
Module Pg.

Definition count (m : inst) (s : Mem.t) : promise value * Mem.t :=
  (Resolved (VStr (pretty (Z.of_nat (length
     (List.filter (λ row, forallb (Mem.matches row) (Mem.filters s m))
                  (Mem.table s)))))), s).

Definition model : DataModel :=
  Build_DataModel Mem.t Mem.fetchAll Mem.construct (Mem.fetch true) Mem.where_
    count Mem.set Mem.save Mem.destroy.

End Pg.

(** ** A data model that is out of reach

    Objects are built as in the reference model, every asynchronous
    operation rejects. *)
Module Offline.

Definition refused : value := VError "connect ECONNREFUSED".

Definition model : DataModel :=
  Build_DataModel Mem.t
    (λ s, (Rejected refused, s))
    Mem.construct
    (λ _ s, (Rejected refused, s))
    Mem.where_
    (λ _ s, (Rejected refused, s))
    Mem.set
    (λ _ _ _ s, (Rejected refused, s))
    (λ _ _ s, (Rejected refused, s)).

End Offline.

(** ** The [name] getter *)

(** [s.replace(/suffix$/, '')] for a literal suffix: the one place where
    the rest of the string is the suffix is its end. *)
Fixpoint replace_suffix (suffix s : string) : string :=
  if String.eqb s suffix then ""
  else match s with
       | "" => ""
       | String a s' => String a (replace_suffix suffix s')
       end.

Definition lower_ascii (a : ascii) : ascii :=
  let n := nat_of_ascii a in
  if (65 <=? n)%nat && (n <=? 90)%nat then ascii_of_nat (n + 32) else a.

(** [s.toLowerCase()] on the ASCII letters class names are made of. *)
Fixpoint toLowerCase (s : string) : string :=
  match s with
  | "" => ""
  | String a s' => String (lower_ascii a) (toLowerCase s')
  end.

Definition name (h : handler) : string :=
  toLowerCase (replace_suffix "RouteHandler" (constructor_name (cls h))).

(** ** The server ([lib/server.js]) *)
Module Server.

(** [process.env]: a variable is a string or [undefined]. *)
Record env : Type := Env {
  PORT : value;
  NODE_ENV : value
}.

Definition isProd (e : env) : bool :=
  bool_decide (NODE_ENV e = VStr "production").

(** [a || b]. *)
Definition or_else (a b : value) : value :=
  if truthy a then a else b.

Definition CONFIG_DEFAULTS (e : env) : obj :=
  {[ "port" := or_else (PORT e) (VNum 3000);
     "applicationName" := VStr "My REST API (override in config.applicationName)";
     "logBody" := VBool (negb (isProd e));
     "stackTrace500" := VBool (negb (isProd e));
     "logLevel" := VStr (if isProd e then "error" else "debug") ]}.

(** What [app.use] has been given, in order. *)
Inductive middleware : Type :=
  | RequestId
  | RequestContext
  | AttachLogger
  | BodyParserJson
  | Compression
  | MorganBody          (* morganBody(app) *)
  | ErrorHandler        (* errorhandler() *)
  | Custom (m : value).

Global Instance middleware_eq_dec : EqDecision middleware.
Proof. solve_decision. Defined.

(** The fields of a server, and what the constructor leaves in the logger:
    the level of its first transport and the messages sent to [info]. *)
Record t : Type := Make {
  app : list middleware;
  db : value;              (* the connection handed to knex *)
  config : obj;
  level : value;
  info : list string
}.

Section Construction.

(** [chalk.magentaBright(`[crudtastic v${version}]`)], [chalk.whiteBright]
    and [JSON.stringify] come from outside the sources. *)
Variable logMsgTag : string.
Variable whiteBright : value → string.
Variable stringify : obj → string.

Definition tagMsg (msg : string) : string :=
  (logMsgTag ++ " " ++ msg)%string.

Definition prop (o : obj) (k : string) : value :=
  default VUndefined (o !! k).

Definition configureMiddleware (app0 : list middleware) (config0 : obj)
    : list middleware :=
  let app1 :=
    fold_left (λ a m, (a ++ [m])%list)
      [RequestId; RequestContext; AttachLogger; BodyParserJson; Compression]
      app0 in
  let app2 :=
    if truthy (prop config0 "logBody") then (app1 ++ [MorganBody])%list else app1 in
  if truthy (prop config0 "stackTrace500") then (app2 ++ [ErrorHandler])%list else app2.

(** [new Server(config)]: the server, or the error thrown. *)
Definition new (e : env) (config0 : obj) : value + t :=
  let dbUrl := prop config0 "dbUrl" in
  if negb (truthy dbUrl)
  then inl (VError ("No dbUrl provided in " ++ stringify config0)%string)
  else
    let merged := config0 ∪ CONFIG_DEFAULTS e in
    inr {| app := configureMiddleware [] merged;
           db := dbUrl;
           config := merged;
           level := prop merged "logLevel";
           info := [tagMsg (whiteBright (prop merged "applicationName"))] |}.

(** [server.use(middleware)]. *)
Definition use (srv : t) (m : value) : t :=
  {| app := (app srv ++ [Custom m])%list; db := db srv; config := config srv;
     level := level srv; info := info srv |}.

End Construction.

End Server.

(** ** Requests against the reference model

    The context object is at location 1 and the parameters at location 2;
    the transaction handle is the string ["tx"]. *)
Module Requests.

Definition M : DataModel := Mem.model true.

(** The world once [processParams] has run for class [c] on parameters
    [prm], and the handler, given its transaction, ready for [handle()]. *)
Definition prepared_world (c : class) (prm : obj) : @world M :=
  (@processParams M (new c 1%positive Mem.sink) 2%positive
     (Mem.request true prm Mem.two_rows)).2.

Definition prepared (c : class) (prm : obj) : handler :=
  useTransaction
    (@processParams M (new c 1%positive Mem.sink) 2%positive
       (Mem.request true prm Mem.two_rows)).1.2
    (VStr "tx").

Definition options : obj := {[ "transacting" := VStr "tx" ]}.

(** PUT /things/1 with body [{ id: 1, a: 9 }]. *)
Definition update_params : obj := {[ "id" := VNum 1; "a" := VNum 9 ]}.

Definition update_set : Mem.t :=
  (Mem.set 1%positive {[ "a" := VNum 9 ]}
     (db (prepared_world UpdateRouteHandler update_params))).2.

Definition update_saved : Mem.t :=
  (Mem.save 1%positive None options update_set).2.

(** POST /things with body [{ a: 9 }]. *)
Definition create_params : obj := {[ "a" := VNum 9 ]}.

Definition create_new : Mem.t :=
  (Mem.construct (Some create_params) Mem.two_rows).2.

Definition create_saved : Mem.t :=
  (Mem.save 1%positive (Some ∅) options create_new).2.

End Requests.

(** ** Deployments of the server *)
Module Deployments.

Definition production : Server.env :=
  {| Server.PORT := VUndefined; Server.NODE_ENV := VStr "production" |}.

Definition development : Server.env :=
  {| Server.PORT := VStr "8080"; Server.NODE_ENV := VUndefined |}.

Definition plain (v : value) : string :=
  match v with
  | VStr s => s
  | _ => ""
  end.

(** The server built for a configuration that only names the database. *)
Definition construct (e : Server.env) : value + Server.t :=
  Server.new "[crudtastic v1.0.0]" plain (λ _, "{}") e
    {[ "dbUrl" := VStr "postgres://localhost/things" ]}.

Definition built (r : value + Server.t) : Server.t :=
  match r with
  | inr srv => srv
  | inl _ => Server.Make [] VUndefined ∅ VUndefined []
  end.

End Deployments.

(** * Properties *)

(** ** The heap *)

Lemma alloc_fresh (h : heap_t) (o : obj) (l : loc) :
  is_Some (h !! l) → (Heap.alloc h o).1 ≠ l.
Proof.
  intros Hl Heq. apply elem_of_dom in Hl.
  apply (is_fresh (dom h)). unfold Heap.alloc in Heq. simpl in Heq.
  by rewrite Heq.
Qed.

Lemma alloc_keeps (h : heap_t) (o : obj) (l : loc) :
  is_Some (h !! l) → (Heap.alloc h o).2 !! l = h !! l.
Proof.
  intros Hl. unfold Heap.alloc. simpl.
  apply lookup_insert_ne. by apply (alloc_fresh h o).
Qed.

Lemma alloc_lookup (h : heap_t) (o : obj) :
  (Heap.alloc h o).2 !! (Heap.alloc h o).1 = Some o.
Proof. unfold Heap.alloc. simpl. apply lookup_insert_eq. Qed.

Lemma del_other (h : heap_t) (l l' : loc) (k : string) :
  l ≠ l' → Heap.del h l k !! l' = h !! l'.
Proof. intros Hne. unfold Heap.del. by apply lookup_insert_ne. Qed.

Lemma del_lookup (h : heap_t) (l : loc) (k : string) :
  Heap.del h l k !! l = Some (delete k (default ∅ (h !! l))).
Proof. unfold Heap.del. apply lookup_insert_eq. Qed.

Lemma get_set (h : heap_t) (l : loc) (k : string) (v : value) :
  Heap.get (Heap.set h l k v) l k = v.
Proof.
  unfold Heap.get, Heap.set. rewrite lookup_insert_eq. simpl.
  by rewrite lookup_insert_eq.
Qed.

(** ** The class hierarchy *)

Lemma constructor_name_inj (c c' : class) :
  constructor_name c = constructor_name c' → c = c'.
Proof. destruct c, c'; simpl; intros Heq; first [reflexivity | discriminate Heq]. Qed.

Lemma existing_resource_cases (c : class) :
  existing_resource c = true →
  c = ExistingResourceRouteHandler ∨ c = ShowRouteHandler
  ∨ c = UpdateRouteHandler ∨ c = DestroyRouteHandler.
Proof. destruct c; vm_compute; intros Hc; try discriminate Hc; auto. Qed.

Section Properties.

Context `{M : DataModel}.
Variable urlFor : store → value → string.

Lemma existing_resource_processParams (h : handler) :
  existing_resource (cls h) = true →
  processParams h = ExistingResourceRouteHandler_processParams h.
Proof.
  intros Hc. unfold processParams.
  destruct (existing_resource_cases _ Hc) as [-> | [-> | [-> | ->]]]; reflexivity.
Qed.

(** C2: the transaction flag is a function of the class alone. It is true
    for the create, update and destroy handlers and false for the index,
    show and exists handlers (and for the two classes that only serve as
    parents). *)
Theorem requiresTransaction_by_class (h : handler) :
  requiresTransaction h =
    match cls h with
    | CreateRouteHandler | UpdateRouteHandler | DestroyRouteHandler => true
    | IndexRouteHandler | ShowRouteHandler | ExistsRouteHandler => false
    | GenericRouteHandler | ExistingResourceRouteHandler => false
    end.
Proof. unfold requiresTransaction. destruct (cls h); reflexivity. Qed.

(** C7: on a handler whose class does not override it, [handle()] throws an
    error whose message starts with the constructor name of that class,
    nothing else happens, and the message determines the class. The throw
    is what the caller receives: it is not turned into a promise. *)
Theorem handle_not_overridden_throws (h : handler) (w : world) :
  overrides_handle urlFor (cls h) = false →
  handle urlFor h w =
    (Throws (VError (constructor_name (cls h) ++ " did not implement handle()")), w)
  ∧ ∀ c : class,
      constructor_name c ++ " did not implement handle()"
      = constructor_name (cls h) ++ " did not implement handle()" →
      c = cls h.
Proof.
  intros Hno. split.
  - unfold handle. destruct (cls h) eqn:Hc; vm_compute in Hno; try discriminate Hno.
    + simpl. unfold GenericRouteHandler_handle. by rewrite Hc.
    + simpl. unfold GenericRouteHandler_handle. by rewrite Hc.
  - intros c Heq. apply constructor_name_inj.
    destruct c, (cls h); vm_compute in Heq; first [reflexivity | discriminate Heq].
Qed.

(** C8: the index handler answers with success and, as body, exactly the
    collection that [fetchAll] resolved with; [fetchAll] is the only call it
    issues, and the data model is left as that call left it. *)
Theorem index_handle_returns_collection (h : handler) (w : world)
    (collection : value) (s' : store) :
  cls h = IndexRouteHandler →
  fetchAll (db w) = (Resolved collection, s') →
  handle urlFor h w =
    (Returns (Resolved (Resp (Res.ok collection (res h)))),
     {| heap := heap w; db := s'; calls := calls w ++ [CallFetchAll];
        logged := logged w |})
  ∧ status (Res.ok collection (res h)) = 200
  ∧ body (Res.ok collection (res h)) = collection.
Proof.
  intros Hc Hall. split; [| by split].
  unfold handle. rewrite Hc. simpl.
  unfold IndexRouteHandler_handle, issue. by rewrite Hall.
Qed.

(** C5: the exists handler's [processParams] resolves with the success
    response of empty body when the count is a nonzero number and with the
    not-found response when it is zero; neither response mentions the
    count. *)
Theorem exists_processParams_by_count (h : handler) (p : loc) (w : world)
    (m q : inst) (s1 s2 s3 : store) (n : Z) :
  cls h = ExistsRouteHandler →
  construct None (db w) = (m, s1) →
  where_ m "id" (Heap.get (heap w) p "id") s1 = (q, s2) →
  count q s2 = (Resolved (VNum n), s3) →
  let w' := {| heap := heap w; db := s3;
               calls := calls w ++ [CallNew None;
                                    CallWhere m "id" (Heap.get (heap w) p "id");
                                    CallCount q];
               logged := logged w |} in
  processParams h p w =
    (Returns (Resolved (Resp (if (n =? 0)%Z
                              then Res.notFound (res h)
                              else Res.ok VUndefined (res h)))), h, w')
  ∧ status (Res.ok VUndefined (res h)) = 200
  ∧ body (Res.ok VUndefined (res h)) = VUndefined
  ∧ headers (Res.ok VUndefined (res h)) = headers (res h)
  ∧ status (Res.notFound (res h)) = 404.
Proof.
  intros Hc Hnew Hwhere Hcount w'. split; [| done].
  unfold processParams. rewrite Hc. simpl.
  unfold ExistsRouteHandler_processParams, issue. rewrite Hnew. simpl.
  rewrite Hwhere. simpl. rewrite Hcount. simpl.
  subst w'. rewrite <- !app_assoc. simpl.
  by destruct (n =? 0)%Z.
Qed.

(** C9: on a handler below [ExistingResourceRouteHandler], when the fetch
    resolves, with any value, [processParams] stores that value as the
    context's resource, resolves with [undefined] and logs nothing; it
    resolves with a response, or logs, only when the fetch rejects. *)
Theorem existing_processParams_stores_resolved (h : handler) (p : loc)
    (w : world) (m : inst) (s1 s2 : store) (f : promise value) :
  existing_resource (cls h) = true →
  construct (Some {[ "id" := Heap.get (heap w) p "id" ]}) (db w) = (m, s1) →
  fetch m s1 = (f, s2) →
  (∀ r : value, f = Resolved r →
     (processParams h p w).1.1 = Returns (Resolved (Val VUndefined))
     ∧ resource (processParams h p w).1.2 (processParams h p w).2 = r
     ∧ logged (processParams h p w).2 = logged w)
  ∧ ((∃ r : response, (processParams h p w).1.1 = Returns (Resolved (Resp r)))
     ∨ logged (processParams h p w).2 ≠ logged w →
     ∃ e : value, f = Rejected e).
Proof.
  intros Hc Hnew Hfetch.
  rewrite (existing_resource_processParams h Hc).
  unfold ExistingResourceRouteHandler_processParams,
    GenericRouteHandler_processParams, issue. simpl.
  rewrite Hnew. simpl. rewrite Hfetch.
  destruct f as [r | e]; simpl.
  - split.
    + intros r' [= <-]. split; [done |]. split; [| done].
      unfold resource. simpl. apply get_set.
    + intros [[r' Hr] | Hlog]; [discriminate Hr | done].
  - split; [intros r' Hr; discriminate Hr | eauto].
Qed.

Lemma existing_processParams_rejected (h : handler) (p : loc) (w : world)
    (m : inst) (s1 s2 : store) (e : value) :
  existing_resource (cls h) = true →
  construct (Some {[ "id" := Heap.get (heap w) p "id" ]}) (db w) = (m, s1) →
  fetch m s1 = (Rejected e, s2) →
  processParams h p w =
    (Returns (Resolved (Resp (Res.notFound (res h)))),
     {| cls := cls h; ctx := ctx h; res := res h; params := Some p; _tx := _tx h |},
     {| heap := heap w; db := s2;
        calls := calls w ++ [CallNew (Some {[ "id" := Heap.get (heap w) p "id" ]});
                             CallFetch m];
        logged := logged w ++ [(e, "red")] |}).
Proof.
  intros Hc Hnew Hfetch.
  rewrite (existing_resource_processParams h Hc).
  unfold ExistingResourceRouteHandler_processParams,
    GenericRouteHandler_processParams, issue. simpl.
  rewrite Hnew. simpl. rewrite Hfetch. simpl.
  unfold log. simpl. by rewrite <- app_assoc.
Qed.

Context `{!FetchRequired M}.

(** C1: on a handler below [ExistingResourceRouteHandler], when no record
    has the id of the request, [processParams] logs the error of the failed
    fetch and resolves with the not-found response, leaving the context
    without a resource; the dispatcher then ends the request with that
    response and never calls [handle()]. *)
Theorem existing_not_found_skips_handle (c : class) (ctx0 : loc)
    (res0 : response) (p : loc) (tx : value) (w : world) :
  existing_resource c = true →
  Forall (λ row : obj, row !! "id" ≠ Some (Heap.get (heap w) p "id"))
         (records (db w)) →
  ∃ e : value,
    (processParams (new c ctx0 res0) p w).1.1
      = Returns (Resolved (Resp (Res.notFound res0)))
    ∧ status (Res.notFound res0) = 404
    ∧ heap (processParams (new c ctx0 res0) p w).2 = heap w
    ∧ logged (processParams (new c ctx0 res0) p w).2
      = (logged w ++ [(e, "red")])%list
    ∧ outcome (dispatch urlFor c ctx0 res0 p tx w)
      = Done (Resp (Res.notFound res0))
    ∧ handle_calls (dispatch urlFor c ctx0 res0 p tx w) = 0%nat
    ∧ final_world (dispatch urlFor c ctx0 res0 p tx w)
      = (processParams (new c ctx0 res0) p w).2.
Proof.
  intros Hc Hnone.
  destruct (construct (Some {[ "id" := Heap.get (heap w) p "id" ]}) (db w))
    as [m s1] eqn:Hnew.
  destruct (fetch_missing _ _ _ _ Hnew Hnone) as (e & s2 & Hfetch).
  exists e. unfold dispatch.
  rewrite (existing_processParams_rejected (new c ctx0 res0) p w m s1 s2 e Hc Hnew Hfetch).
  simpl. done.
Qed.

(** C3: when the save of the new model succeeds, the create handler
    resolves with a response of status 201 whose [Location] header is
    [urlFor] of the saved resource and whose body is the saved resource. *)
Theorem create_handle_created (h : handler) (w : world) (m : inst)
    (s1 s2 : store) (saved : value) :
  cls h = CreateRouteHandler →
  construct (Heap.arg (heap w) (params h)) (db w) = (m, s1) →
  save m (Some ∅) {[ "transacting" := _tx h ]} s1 = (Resolved saved, s2) →
  ∃ r : response,
    (handle urlFor h w).1 = Returns (Resolved (Resp r))
    ∧ status r = 201
    ∧ headers r !! "Location" = Some (urlFor s2 saved)
    ∧ body r = saved
    ∧ db (handle urlFor h w).2 = s2.
Proof.
  intros Hc Hnew Hsave. unfold handle. rewrite Hc. simpl.
  unfold CreateRouteHandler_handle, issue. rewrite Hnew. simpl.
  rewrite Hsave. simpl.
  eexists. split; [reflexivity |]. simpl.
  split; [done |]. split; [apply lookup_insert_eq | done].
Qed.

Lemma issue_heap {A : Type} (c : call) (op : store → A * store) (w : world) :
  heap (issue c op w).2 = heap w.
Proof. unfold issue. by destruct (op (db w)). Qed.

Lemma get_same (hp hp' : heap_t) (l : loc) (k : string) :
  hp !! l = hp' !! l → Heap.get hp l k = Heap.get hp' l k.
Proof. unfold Heap.get. by intros ->. Qed.

Lemma update_heap_keeps (h : handler) (w : world) (l : loc) :
  is_Some (heap w !! l) → update_heap h w !! l = heap w !! l.
Proof.
  intros Hl. unfold update_heap, Heap.spread.
  rewrite del_other; [by apply alloc_keeps | by apply alloc_fresh].
Qed.

Lemma update_heap_safeParams (h : handler) (w : world) :
  Heap.props (update_heap h w) (Some (Heap.spread (heap w) (params h)).1)
  = delete "id" (Heap.props (heap w) (params h)).
Proof.
  unfold update_heap, Heap.spread, Heap.props at 1.
  rewrite del_lookup, alloc_lookup. reflexivity.
Qed.

Lemma update_handle_heap (h : handler) (w : world) :
  heap (UpdateRouteHandler_handle h w).2 = update_heap h w.
Proof.
  unfold UpdateRouteHandler_handle, update_heap.
  destruct (Heap.spread (heap w) (params h)) as [safeParams hp]. simpl.
  destruct (resource h _); try reflexivity.
  unfold issue. simpl.
  destruct (set _ _ _) as [m s1]. simpl.
  destruct (save _ _ _ _) as [[r | e] s2]; reflexivity.
Qed.

Lemma update_resource (h : handler) (w : world) (i : inst) :
  resource h w = VModel i →
  resource h (with_heap (update_heap h w) w) = VModel i.
Proof.
  intros Hr. unfold resource in *. simpl. rewrite <- Hr.
  apply get_same, update_heap_keeps.
  unfold Heap.get in Hr.
  destruct (heap w !! ctx h); [eauto | simpl in Hr].
  by rewrite lookup_empty in Hr.
Qed.

(** C10: the update handler deletes [id] from a copy of its parameters:
    after [handle()] the object behind [this.params] holds every property
    it held before, [id] included, whatever the data model answers. *)
Theorem update_handle_keeps_params (h : handler) (w : world) (p : loc) (o : obj) :
  cls h = UpdateRouteHandler →
  params h = Some p →
  heap w !! p = Some o →
  heap (handle urlFor h w).2 !! p = Some o.
Proof.
  intros Hc Hp Ho. unfold handle. rewrite Hc. simpl.
  rewrite update_handle_heap, update_heap_keeps; [done | by rewrite Ho].
Qed.

Ltac issued_are l :=
  exists l; split;
  [ rewrite ?app_nil_r, <- ?app_assoc; reflexivity
  | repeat constructor; simpl; unfold transacting; simpl;
    try done; try (intros _; apply lookup_singleton_eq) ].

(** C6: the calls [handle()] issues that write to the database (save,
    destroy) all carry the stored transaction handle as their [transacting]
    option when the handler requires a transaction; a handler that does not
    require one issues no such call. *)
Theorem handle_mutations_in_transaction (h : handler) (w : world) :
  ∃ issued : list call,
    calls (handle urlFor h w).2 = (calls w ++ issued)%list
    ∧ if requiresTransaction h
      then Forall (λ c, mutating c = true → transacting (_tx h) c) issued
      else Forall (λ c, mutating c = false) issued.
Proof.
  unfold handle, requiresTransaction. destruct (cls h) eqn:Hc; simpl.
  - issued_are (@nil call).
  - unfold IndexRouteHandler_handle, issue.
    destruct (fetchAll (db w)) as [[collection | e] s]; simpl;
      issued_are [CallFetchAll].
  - unfold CreateRouteHandler_handle, issue.
    destruct (construct _ (db w)) as [m s1]. simpl.
    destruct (save m _ _ s1) as [[saved | e] s2]; simpl;
      issued_are [CallNew (Heap.arg (heap w) (params h));
                  CallSave m (Some ∅) {[ "transacting" := _tx h ]}].
  - issued_are (@nil call).
  - issued_are (@nil call).
  - issued_are (@nil call).
  - unfold UpdateRouteHandler_handle.
    destruct (Heap.spread (heap w) (params h)) as [safeParams hp]. simpl.
    destruct (resource h _) as [| | | | | | this_resource | |];
      try issued_are (@nil call).
    unfold issue. simpl.
    destruct (set this_resource _ (db w)) as [m s1]. simpl.
    destruct (save m _ _ s1) as [[r | e] s2]; simpl;
      issued_are [CallSet this_resource
                    (default ∅ (Heap.del hp safeParams "id" !! safeParams));
                  CallSave m None {[ "transacting" := _tx h ]}].
  - unfold DestroyRouteHandler_handle.
    destruct (resource h w) as [| | | | | | this_resource | |];
      try issued_are (@nil call).
    unfold issue.
    destruct (destroy this_resource _ (db w)) as [[d | e] s1]; simpl;
      issued_are [CallDestroy this_resource {[ "transacting" := _tx h ]}].
Qed.

Context `{!Bookshelf M}.

(** C4: on an update handler whose resource is loaded, [handle()] hands
    [set] every parameter except [id], then saves the resource with the
    stored transaction handle; when the save succeeds it answers with
    success carrying the resource, whose attributes then hold the value of
    every parameter other than [id] and are unchanged where the parameters
    say nothing; the [id] of the resource stays as it was. *)
Theorem update_handle_merges (h : handler) (w : world) (this_resource m : inst)
    (s1 s2 : store) (r : value) :
  cls h = UpdateRouteHandler →
  resource h w = VModel this_resource →
  set this_resource (delete "id" (Heap.props (heap w) (params h))) (db w) = (m, s1) →
  save m None {[ "transacting" := _tx h ]} s1 = (Resolved r, s2) →
  (handle urlFor h w).1
    = Returns (Resolved (Resp (Res.ok (VModel this_resource) (res h))))
  ∧ calls (handle urlFor h w).2
    = (calls w ++ [CallSet this_resource
                     (delete "id" (Heap.props (heap w) (params h)));
                   CallSave this_resource None {[ "transacting" := _tx h ]}])%list
  ∧ db (handle urlFor h w).2 = s2
  ∧ attributes s1 this_resource
    = delete "id" (Heap.props (heap w) (params h)) ∪ attributes (db w) this_resource
  ∧ (∀ (k : string) (v : value),
       k ≠ "id" → Heap.props (heap w) (params h) !! k = Some v →
       attributes s2 this_resource !! k = Some v)
  ∧ (∀ (k : string) (v : value),
       Heap.props (heap w) (params h) !! k = None →
       attributes (db w) this_resource !! k = Some v →
       attributes s2 this_resource !! k = Some v)
  ∧ (∀ v : value,
       attributes (db w) this_resource !! "id" = Some v →
       attributes s2 this_resource !! "id" = Some v).
Proof.
  intros Hc Hres Hset Hsave.
  destruct (set_merges _ _ _ _ _ Hset) as [-> Hattrs].
  destruct (save_keeps _ _ _ _ _ Hsave) as [-> Hkeeps].
  pose proof (update_heap_safeParams h w) as Hsafe.
  remember (Heap.props (heap w) (params h)) as o eqn:Ho.
  assert (Hrun : UpdateRouteHandler_handle h w =
    (Returns (Resolved (Resp (Res.ok (VModel this_resource) (res h)))),
     {| heap := update_heap h w; db := s2;
        calls := calls w ++ [CallSet this_resource
                               (delete "id" (Heap.props (heap w) (params h)));
                             CallSave this_resource None {[ "transacting" := _tx h ]}];
        logged := logged w |})).
  { pose proof (update_resource h w _ Hres) as Hres'.
    unfold UpdateRouteHandler_handle. unfold update_heap in Hres', Hsafe |- *.
    destruct (Heap.spread (heap w) (params h)) as [safeParams hp].
    simpl in Hres', Hsafe. rewrite Hres'. simpl.
    rewrite Hsafe.
    unfold issue. simpl. rewrite Hset. simpl. rewrite Hsave. simpl.
    subst o. by rewrite <- app_assoc. }
  unfold handle. rewrite Hc. simpl. rewrite Hrun. simpl.
  do 4 (split; [by subst o |]). split; [| split].
  - intros k v Hk Hv. eapply lookup_weaken; [| exact Hkeeps].
    rewrite Hattrs. apply lookup_union_Some_l. by rewrite lookup_delete_ne.
  - intros k v Hk Hv. eapply lookup_weaken; [| exact Hkeeps].
    rewrite Hattrs. rewrite lookup_union_r; [done |].
    destruct (decide (k = "id")) as [-> | Hne];
      [apply lookup_delete_eq | by rewrite lookup_delete_ne].
  - intros v Hv. eapply lookup_weaken; [| exact Hkeeps].
    rewrite Hattrs. rewrite lookup_union_r; [done | apply lookup_delete_eq].
Qed.

End Properties.

(** ** The reference data model meets the Bookshelf contracts *)

Lemma mem_attributes_put (s : Mem.t) (m : inst) (a : obj)
    (f : list (string * value)) :
  Mem.attributes (Mem.put m (Mem.Model a f) s) m = a.
Proof. unfold Mem.attributes, Mem.put. simpl. by rewrite lookup_insert_eq. Qed.

Lemma mem_set_merges (m : inst) (a : obj) (s : Mem.t) (m' : inst) (s' : Mem.t) :
  Mem.set m a s = (m', s') →
  m' = m ∧ Mem.attributes s' m = a ∪ Mem.attributes s m.
Proof.
  unfold Mem.set. intros [= <- <-]. split; [done |].
  apply mem_attributes_put.
Qed.

Lemma mem_save_keeps (m : inst) (o : obj) (s : Mem.t) (r : value) (s' : Mem.t) :
  Mem.save m None o s = (Resolved r, s') →
  r = VModel m ∧ Mem.attributes s m ⊆ Mem.attributes s' m.
Proof.
  unfold Mem.save. simpl. rewrite (left_id_L ∅ (∪)).
  destruct (Mem.writable s); [| intros Hs; discriminate Hs].
  destruct (Mem.attributes s m !! "id") as [id |] eqn:Hid.
  - destruct (existsb _ _); intros [= <- <-]. split; [done |].
    by rewrite mem_attributes_put.
  - intros [= <- <-]. split; [done |].
    rewrite mem_attributes_put. by apply insert_subseteq.
Qed.

Lemma mem_find_missing (id : value) (rows : list obj) :
  Forall (λ row : obj, row !! "id" ≠ Some id) rows →
  List.find (λ row, forallb (Mem.matches row) (map_to_list ({[ "id" := id ]} : obj)))
            rows = None.
Proof.
  rewrite map_to_list_singleton.
  induction 1 as [| row rows Hrow _ IH]; [done |].
  simpl. unfold Mem.matches at 1. simpl.
  by rewrite bool_decide_eq_false_2.
Qed.

Lemma mem_fetch_missing (id : value) (s : Mem.t) (m : inst) (s1 : Mem.t) :
  Mem.construct (Some {[ "id" := id ]}) s = (m, s1) →
  Forall (λ row : obj, row !! "id" ≠ Some id) (Mem.table s) →
  ∃ e s2, Mem.fetch true m s1 = (Rejected e, s2).
Proof.
  unfold Mem.construct. intros [= <- <-] Hnone.
  unfold Mem.fetch. rewrite mem_attributes_put. simpl.
  rewrite (mem_find_missing id _ Hnone). eauto.
Qed.

Lemma mem_bookshelf (require : bool) : Bookshelf (Mem.model require).
Proof.
  exact (Build_Bookshelf (Mem.model require) Mem.attributes
           mem_set_merges mem_save_keeps).
Defined.

Lemma mem_fetch_required : FetchRequired (Mem.model true).
Proof.
  exact (Build_FetchRequired (Mem.model true) Mem.table mem_fetch_missing).
Defined.

(** ** The properties on concrete requests *)

Lemma existing_not_found_skips_handle_witness :
  ∃ e : value,
    (@processParams (Mem.model true)
       (new UpdateRouteHandler 1%positive Mem.sink) 2%positive
       (Mem.request true {[ "id" := VNum 7; "a" := VNum 9 ]} Mem.two_rows)).1.1
      = Returns (Resolved (Resp (Res.notFound Mem.sink)))
    ∧ status (Res.notFound Mem.sink) = 404
    ∧ heap (@processParams (Mem.model true)
         (new UpdateRouteHandler 1%positive Mem.sink) 2%positive
         (Mem.request true {[ "id" := VNum 7; "a" := VNum 9 ]} Mem.two_rows)).2
      = heap (Mem.request true {[ "id" := VNum 7; "a" := VNum 9 ]} Mem.two_rows)
    ∧ logged (@processParams (Mem.model true)
         (new UpdateRouteHandler 1%positive Mem.sink) 2%positive
         (Mem.request true {[ "id" := VNum 7; "a" := VNum 9 ]} Mem.two_rows)).2
      = ([] ++ [(e, "red")])%list
    ∧ outcome (@dispatch (Mem.model true) Mem.urlFor UpdateRouteHandler
         1%positive Mem.sink 2%positive (VStr "tx")
         (Mem.request true {[ "id" := VNum 7; "a" := VNum 9 ]} Mem.two_rows))
      = Done (Resp (Res.notFound Mem.sink))
    ∧ handle_calls (@dispatch (Mem.model true) Mem.urlFor UpdateRouteHandler
         1%positive Mem.sink 2%positive (VStr "tx")
         (Mem.request true {[ "id" := VNum 7; "a" := VNum 9 ]} Mem.two_rows))
      = 0%nat
    ∧ final_world (@dispatch (Mem.model true) Mem.urlFor UpdateRouteHandler
         1%positive Mem.sink 2%positive (VStr "tx")
         (Mem.request true {[ "id" := VNum 7; "a" := VNum 9 ]} Mem.two_rows))
      = (@processParams (Mem.model true)
           (new UpdateRouteHandler 1%positive Mem.sink) 2%positive
           (Mem.request true {[ "id" := VNum 7; "a" := VNum 9 ]} Mem.two_rows)).2.
Proof.
  apply (existing_not_found_skips_handle (M := Mem.model true) Mem.urlFor
           (FetchRequired0 := mem_fetch_required)).
  - reflexivity.
  - vm_compute. repeat constructor; discriminate.
Defined.

Lemma handle_not_overridden_throws_witness :
  @handle Requests.M Mem.urlFor (new GenericRouteHandler 1%positive Mem.sink)
    (Mem.request true ∅ Mem.two_rows)
  = (Throws (VError "GenericRouteHandler did not implement handle()"),
     Mem.request true ∅ Mem.two_rows).
Proof.
  apply (handle_not_overridden_throws (M := Requests.M) Mem.urlFor
           (new GenericRouteHandler 1%positive Mem.sink)).
  reflexivity.
Defined.

Lemma index_handle_returns_collection_witness :
  (@handle Requests.M Mem.urlFor (new IndexRouteHandler 1%positive Mem.sink)
     (Mem.request true ∅ Mem.two_rows)).1
  = Returns (Resolved (Resp (Res.ok (VModel 1%positive) Mem.sink)))
  ∧ Mem.objects (db (@handle Requests.M Mem.urlFor
                       (new IndexRouteHandler 1%positive Mem.sink)
                       (Mem.request true ∅ Mem.two_rows)).2) !! 1%positive
    = Some (Mem.Collection [Mem.row 1 1 2; Mem.row 2 5 6]).
Proof.
  destruct (index_handle_returns_collection (M := Requests.M) Mem.urlFor
              (new IndexRouteHandler 1%positive Mem.sink)
              (Mem.request true ∅ Mem.two_rows)
              (VModel 1%positive) (Mem.fetchAll Mem.two_rows).2
              eq_refl eq_refl) as [Hrun _].
  rewrite Hrun. split; reflexivity.
Defined.

Lemma exists_processParams_by_count_witness :
  (@processParams Requests.M (new ExistsRouteHandler 1%positive Mem.sink)
     2%positive (Mem.request true {[ "id" := VNum 2 ]} Mem.two_rows)).1.1
  = Returns (Resolved (Resp (Res.ok VUndefined Mem.sink))).
Proof.
  destruct (exists_processParams_by_count (M := Requests.M)
              (new ExistsRouteHandler 1%positive Mem.sink) 2%positive
              (Mem.request true {[ "id" := VNum 2 ]} Mem.two_rows)
              1%positive 1%positive
              (Mem.construct None Mem.two_rows).2
              (Mem.where_ 1%positive "id" (VNum 2)
                 (Mem.construct None Mem.two_rows).2).2
              (Mem.where_ 1%positive "id" (VNum 2)
                 (Mem.construct None Mem.two_rows).2).2
              1) as [Hrun _]; [vm_compute; reflexivity .. |].
  rewrite Hrun. reflexivity.
Defined.

Lemma existing_processParams_stores_resolved_witness :
  (@processParams (Mem.model false) (new ShowRouteHandler 1%positive Mem.sink)
     2%positive (Mem.request false {[ "id" := VNum 7 ]} Mem.two_rows)).1.1
  = Returns (Resolved (Val VUndefined))
  ∧ resource
      (@processParams (Mem.model false) (new ShowRouteHandler 1%positive Mem.sink)
         2%positive (Mem.request false {[ "id" := VNum 7 ]} Mem.two_rows)).1.2
      (@processParams (Mem.model false) (new ShowRouteHandler 1%positive Mem.sink)
         2%positive (Mem.request false {[ "id" := VNum 7 ]} Mem.two_rows)).2
    = VNull.
Proof.
  destruct (existing_processParams_stores_resolved (M := Mem.model false)
              (new ShowRouteHandler 1%positive Mem.sink) 2%positive
              (Mem.request false {[ "id" := VNum 7 ]} Mem.two_rows)
              1%positive
              (Mem.construct (Some {[ "id" := VNum 7 ]}) Mem.two_rows).2
              (Mem.construct (Some {[ "id" := VNum 7 ]}) Mem.two_rows).2
              (Resolved VNull))
    as [Hstores _]; [vm_compute; reflexivity .. |].
  destruct (Hstores VNull eq_refl) as (Hanswer & Hresource & _).
  exact (conj Hanswer Hresource).
Defined.

Lemma create_handle_created_witness :
  ∃ r : response,
    (@handle Requests.M Mem.urlFor
       (Requests.prepared CreateRouteHandler Requests.create_params)
       (Requests.prepared_world CreateRouteHandler Requests.create_params)).1
    = Returns (Resolved (Resp r))
    ∧ status r = 201
    ∧ headers r !! "Location" = Some "/things/3"
    ∧ body r = VModel 1%positive.
Proof.
  destruct (create_handle_created (M := Requests.M) Mem.urlFor
              (Requests.prepared CreateRouteHandler Requests.create_params)
              (Requests.prepared_world CreateRouteHandler Requests.create_params)
              1%positive Requests.create_new Requests.create_saved
              (VModel 1%positive))
    as (r & Hrun & Hstatus & Hlocation & Hbody & _);
    [vm_compute; reflexivity .. |].
  exists r. split; [exact Hrun |]. split; [exact Hstatus |].
  split; [| exact Hbody]. rewrite Hlocation. vm_compute. reflexivity.
Defined.

Lemma update_handle_keeps_params_witness :
  heap (@handle Requests.M Mem.urlFor
          (Requests.prepared UpdateRouteHandler Requests.update_params)
          (Requests.prepared_world UpdateRouteHandler Requests.update_params)).2
    !! 2%positive
  = Some Requests.update_params.
Proof.
  apply (update_handle_keeps_params (M := Requests.M) Mem.urlFor);
    vm_compute; reflexivity.
Defined.

Lemma update_handle_merges_witness :
  (@handle Requests.M Mem.urlFor
     (Requests.prepared UpdateRouteHandler Requests.update_params)
     (Requests.prepared_world UpdateRouteHandler Requests.update_params)).1
  = Returns (Resolved (Resp (Res.ok (VModel 1%positive) Mem.sink)))
  ∧ Mem.table
      (db (@handle Requests.M Mem.urlFor
             (Requests.prepared UpdateRouteHandler Requests.update_params)
             (Requests.prepared_world UpdateRouteHandler Requests.update_params)).2)
    = [Mem.row 1 9 2; Mem.row 2 5 6]
  ∧ Mem.attributes Requests.update_saved 1%positive = Mem.row 1 9 2.
Proof.
  destruct (update_handle_merges (M := Requests.M) Mem.urlFor
              (Bookshelf0 := mem_bookshelf true)
              (Requests.prepared UpdateRouteHandler Requests.update_params)
              (Requests.prepared_world UpdateRouteHandler Requests.update_params)
              1%positive 1%positive Requests.update_set Requests.update_saved
              (VModel 1%positive))
    as (Hrun & _ & Hdb & _); [vm_compute; reflexivity .. |].
  split; [exact Hrun |]. rewrite Hdb. split; vm_compute; reflexivity.
Defined.

(** * Further properties of the handlers *)

Lemma get_set_other (hp : heap_t) (l l' : loc) (k k' : string) (v : value) :
  l' ≠ l ∨ k' ≠ k → Heap.get (Heap.set hp l k v) l' k' = Heap.get hp l' k'.
Proof.
  intros Hne. unfold Heap.get, Heap.set.
  destruct (decide (l' = l)) as [-> | Hl].
  - destruct Hne as [Hne | Hne]; [done |].
    rewrite lookup_insert_eq. simpl. by rewrite lookup_insert_ne.
  - by rewrite lookup_insert_ne.
Qed.


Section HandlerProperties.

Context `{M : DataModel}.
Variable urlFor : store → value → string.


(** X2: the only thing [processParams] ever writes in the heap is the
    [resource] property of the context object: every other property of
    every object reads as before. *)
Theorem processParams_writes_only_resource (h : handler) (p : loc) (w : world)
    (l : loc) (k : string) :
  l ≠ ctx h ∨ k ≠ "resource" →
  Heap.get (heap (processParams h p w).2) l k = Heap.get (heap w) l k.
Proof.
  intros Hne.
  assert (Hexisting :
    Heap.get (heap (ExistingResourceRouteHandler_processParams h p w).2) l k
    = Heap.get (heap w) l k).
  { unfold ExistingResourceRouteHandler_processParams,
      GenericRouteHandler_processParams, issue. simpl.
    destruct (construct _ (db w)) as [m s1]. simpl.
    destruct (fetch m s1) as [[r | e] s2]; simpl; [| done].
    by apply get_set_other. }
  unfold processParams. destruct (cls h); simpl; try exact Hexisting; try done.
  unfold ExistsRouteHandler_processParams, issue.
  destruct (construct None (db w)) as [m s1]. simpl.
  destruct (where_ m _ _ s1) as [q s2]. simpl.
  by destruct (count q s2) as [[n | e] s3].
Qed.

(** X3: [processParams] reads nothing of the parameters but their [id]:
    two parameter objects with the same [id] give the same completion and
    leave the same world behind. *)
Theorem processParams_reads_only_id (h : handler) (p p' : loc) (w : world) :
  Heap.get (heap w) p "id" = Heap.get (heap w) p' "id" →
  (processParams h p w).1.1 = (processParams h p' w).1.1
  ∧ (processParams h p w).2 = (processParams h p' w).2.
Proof.
  intros Hid.
  assert (Hexisting :
    (ExistingResourceRouteHandler_processParams h p w).1.1
    = (ExistingResourceRouteHandler_processParams h p' w).1.1
    ∧ (ExistingResourceRouteHandler_processParams h p w).2
      = (ExistingResourceRouteHandler_processParams h p' w).2).
  { unfold ExistingResourceRouteHandler_processParams,
      GenericRouteHandler_processParams, issue. simpl. rewrite Hid.
    destruct (construct _ (db w)) as [m s1]. simpl.
    by destruct (fetch m s1) as [[r | e] s2]. }
  unfold processParams. destruct (cls h); simpl; try exact Hexisting; try done.
  unfold ExistsRouteHandler_processParams, issue.
  destruct (construct None (db w)) as [m s1]. simpl. rewrite Hid.
  destruct (where_ m _ _ s1) as [q s2]. simpl.
  by destruct (count q s2) as [[n | e] s3].
Qed.

(** X4: the exists handler never records the parameters, its fields are
    after [processParams] what they were before; every other class stores
    them in [this.params], whether or not its fetch succeeds, and changes
    no other field. *)
Theorem processParams_params_field (h : handler) (p : loc) (w : world) :
  (processParams h p w).1.2 =
    if bool_decide (cls h = ExistsRouteHandler) then h
    else {| cls := cls h; ctx := ctx h; res := res h;
            params := Some p; _tx := _tx h |}.
Proof.
  assert (Hexisting :
    (ExistingResourceRouteHandler_processParams h p w).1.2
    = {| cls := cls h; ctx := ctx h; res := res h;
         params := Some p; _tx := _tx h |}).
  { unfold ExistingResourceRouteHandler_processParams,
      GenericRouteHandler_processParams, issue. simpl.
    destruct (construct _ (db w)) as [m s1]. simpl.
    by destruct (fetch m s1) as [[r | e] s2]. }
  unfold processParams. destruct h as [c ctx0 res0 prm tx]. simpl in *.
  destruct c; simpl; try exact Hexisting; try done.
  unfold ExistsRouteHandler_processParams, issue. simpl.
  destruct (construct None (db w)) as [m s1]. simpl.
  destruct (where_ m _ _ s1) as [q s2]. simpl.
  by destruct (count q s2) as [[n | e] s3].
Qed.

(** X5: when [count] resolves with text, as it does for a bigint column
    count unless the driver parses it, the exists handler answers success
    for every non-empty text, the text of zero included. *)
Theorem exists_processParams_text_count (h : handler) (p : loc) (w : world)
    (m q : inst) (s1 s2 s3 : store) (n : string) :
  cls h = ExistsRouteHandler →
  construct None (db w) = (m, s1) →
  where_ m "id" (Heap.get (heap w) p "id") s1 = (q, s2) →
  count q s2 = (Resolved (VStr n), s3) →
  n ≠ "" →
  (processParams h p w).1.1
  = Returns (Resolved (Resp (Res.ok VUndefined (res h)))).
Proof.
  intros Hc Hnew Hwhere Hcount Hn.
  unfold processParams. rewrite Hc. simpl.
  unfold ExistsRouteHandler_processParams, issue. rewrite Hnew. simpl.
  rewrite Hwhere. simpl. rewrite Hcount. simpl.
  apply String.eqb_neq in Hn. by rewrite Hn.
Qed.

(** X6: when [count] rejects, the exists handler's [processParams] rejects
    with the same error: no response is produced and nothing is logged. *)
Theorem exists_processParams_count_rejected (h : handler) (p : loc) (w : world)
    (m q : inst) (s1 s2 s3 : store) (e : value) :
  cls h = ExistsRouteHandler →
  construct None (db w) = (m, s1) →
  where_ m "id" (Heap.get (heap w) p "id") s1 = (q, s2) →
  count q s2 = (Rejected e, s3) →
  (processParams h p w).1.1 = Returns (Rejected e)
  ∧ logged (processParams h p w).2 = logged w.
Proof.
  intros Hc Hnew Hwhere Hcount.
  unfold processParams. rewrite Hc. simpl.
  unfold ExistsRouteHandler_processParams, issue. rewrite Hnew. simpl.
  rewrite Hwhere. simpl. by rewrite Hcount.
Qed.

(** X7: when the save of the create handler rejects, [handle()] rejects
    with the same error and builds no response; the save was issued with
    the stored transaction handle. *)
Theorem create_handle_save_rejected (h : handler) (w : world) (m : inst)
    (s1 s2 : store) (e : value) :
  cls h = CreateRouteHandler →
  construct (Heap.arg (heap w) (params h)) (db w) = (m, s1) →
  save m (Some ∅) {[ "transacting" := _tx h ]} s1 = (Rejected e, s2) →
  handle urlFor h w =
    (Returns (Rejected e),
     {| heap := heap w; db := s2;
        calls := calls w ++ [CallNew (Heap.arg (heap w) (params h));
                             CallSave m (Some ∅) {[ "transacting" := _tx h ]}];
        logged := logged w |}).
Proof.
  intros Hc Hnew Hsave. unfold handle. rewrite Hc. simpl.
  unfold CreateRouteHandler_handle, issue. rewrite Hnew. simpl.
  rewrite Hsave. simpl. by rewrite <- app_assoc.
Qed.

(** X8: the create handler, run through [processParams], [useTransaction]
    and [handle()], constructs the model from exactly the properties of the
    parameters it was given and saves it in the transaction it was given,
    and issues nothing else. *)
Theorem create_lifecycle_calls (h : handler) (p : loc) (tx : value) (w : world) :
  cls h = CreateRouteHandler →
  ∃ m : inst,
    calls (handle urlFor (useTransaction (processParams h p w).1.2 tx)
             (processParams h p w).2).2
    = (calls w ++ [CallNew (Some (default ∅ (heap w !! p)));
                   CallSave m (Some ∅) {[ "transacting" := tx ]}])%list.
Proof.
  intros Hc. destruct h as [c ctx0 res0 prm tx0]. simpl in Hc. subst c.
  unfold processParams, handle. simpl.
  unfold CreateRouteHandler_handle, issue. simpl.
  destruct (construct _ (db w)) as [m s1]. simpl.
  exists m. destruct (save m _ _ s1) as [[saved | e] s2]; simpl;
    by rewrite <- app_assoc.
Qed.

(** X9: on a show handler whose fetch resolves, [processParams] followed by
    [handle()] answers success with exactly the value the fetch resolved
    with as body, and [handle()] itself changes nothing. *)
Theorem show_lifecycle_body (h : handler) (p : loc) (w : world) (m : inst)
    (s1 s2 : store) (r : value) :
  cls h = ShowRouteHandler →
  construct (Some {[ "id" := Heap.get (heap w) p "id" ]}) (db w) = (m, s1) →
  fetch m s1 = (Resolved r, s2) →
  handle urlFor (processParams h p w).1.2 (processParams h p w).2
  = (Returns (Resolved (Resp (Res.ok r (res h)))), (processParams h p w).2).
Proof.
  intros Hc Hnew Hfetch. destruct h as [c ctx0 res0 prm tx0].
  simpl in Hc. subst c. unfold processParams, handle. simpl.
  unfold ExistingResourceRouteHandler_processParams,
    GenericRouteHandler_processParams, issue. simpl.
  rewrite Hnew. simpl. rewrite Hfetch. simpl.
  unfold ShowRouteHandler_handle, resource. simpl. by rewrite get_set.
Qed.

(** X10: on an update or destroy handler whose context object holds no
    model as resource (nothing was loaded, or the fetch resolved with
    [null]), [handle()] throws a TypeError before returning a promise and
    issues no call to the data model. *)
Theorem handle_without_resource_throws (h : handler) (w : world) :
  cls h = UpdateRouteHandler ∨ cls h = DestroyRouteHandler →
  is_Some (heap w !! ctx h) →
  (∀ i : inst, resource h w ≠ VModel i) →
  (handle urlFor h w).1 = Throws VTypeError
  ∧ calls (handle urlFor h w).2 = calls w
  ∧ db (handle urlFor h w).2 = db w.
Proof.
  intros [Hc | Hc] Hctx Hnone; unfold handle; rewrite Hc; simpl.
  - assert (Hnone' : ∀ i : inst,
      resource h (with_heap (update_heap h w) w) ≠ VModel i).
    { intros i Hi. apply (Hnone i). unfold resource in *. simpl in Hi.
      rewrite <- Hi. symmetry. by apply get_same, update_heap_keeps. }
    unfold UpdateRouteHandler_handle. unfold update_heap in Hnone'.
    destruct (Heap.spread (heap w) (params h)) as [safeParams hp]. simpl in *.
    clear Hnone.
    destruct (resource h (with_heap _ w)) as [| | | | | | i | |] eqn:Hr;
      try (by repeat split).
    by destruct (Hnone' i).
  - unfold DestroyRouteHandler_handle.
    destruct (resource h w) as [| | | | | | i | |] eqn:Hr;
      try (by repeat split).
    by destruct (Hnone i).
Qed.

(** X11: on a destroy handler with a loaded resource, [handle()] issues
    one call, the destroy of that resource with the stored transaction
    handle; it answers success with an empty body whatever the destroy
    resolved with, and rejects with the same error when it rejects. *)
Theorem destroy_handle_destroys (h : handler) (w : world) (i : inst)
    (d : promise value) (s' : store) :
  cls h = DestroyRouteHandler →
  resource h w = VModel i →
  destroy i {[ "transacting" := _tx h ]} (db w) = (d, s') →
  handle urlFor h w =
    (Returns match d with
             | Resolved _ => Resolved (Resp (Res.ok VUndefined (res h)))
             | Rejected e => Rejected e
             end,
     {| heap := heap w; db := s';
        calls := calls w ++ [CallDestroy i {[ "transacting" := _tx h ]}];
        logged := logged w |}).
Proof.
  intros Hc Hres Hdestroy. unfold handle. rewrite Hc. simpl.
  unfold DestroyRouteHandler_handle, issue. rewrite Hres, Hdestroy.
  by destruct d.
Qed.

(** X12: [handle()] never logs and never changes an object that exists:
    the context and the parameters read after it as they did before, for
    every class and whatever the data model answers. *)
Theorem handle_keeps_heap_and_log (h : handler) (w : world) :
  logged (handle urlFor h w).2 = logged w
  ∧ ∀ l : loc, is_Some (heap w !! l) →
      heap (handle urlFor h w).2 !! l = heap w !! l.
Proof.
  unfold handle. destruct (cls h); simpl; try done.
  - unfold IndexRouteHandler_handle, issue.
    by destruct (fetchAll (db w)) as [[collection | e] s].
  - unfold CreateRouteHandler_handle, issue.
    destruct (construct _ (db w)) as [m s1]. simpl.
    by destruct (save m _ _ s1) as [[saved | e] s2].
  - split.
    + unfold UpdateRouteHandler_handle.
      destruct (Heap.spread (heap w) (params h)) as [safeParams hp]. simpl.
      destruct (resource h _); try done.
      unfold issue. simpl.
      destruct (set _ _ (db w)) as [m s1]. simpl.
      by destruct (save m _ _ s1) as [[r | e] s2].
    + intros l Hl. rewrite update_handle_heap. by apply update_heap_keeps.
  - unfold DestroyRouteHandler_handle.
    destruct (resource h w); try done.
    unfold issue.
    by destruct (destroy _ _ (db w)) as [[d | e] s1].
Qed.

(** X13: a promise returned by [handle()] resolves with nothing but a
    response, of status 201 on the create handler and 200 on every other
    one: [handle()] never answers not-found. *)
Theorem handle_resolves_response (h : handler) (w : world) (a : answer) :
  (handle urlFor h w).1 = Returns (Resolved a) →
  ∃ r : response,
    a = Resp r
    ∧ status r = if bool_decide (cls h = CreateRouteHandler) then 201 else 200.
Proof.
  unfold handle. destruct (cls h); simpl.
  - intros Ha. discriminate Ha.
  - unfold IndexRouteHandler_handle, issue.
    destruct (fetchAll (db w)) as [[collection | e] s]; simpl;
      intros [= <-]; eauto.
  - unfold CreateRouteHandler_handle, issue.
    destruct (construct _ (db w)) as [m s1]. simpl.
    destruct (save m _ _ s1) as [[saved | e] s2]; simpl; intros [= <-]; eauto.
  - intros Ha. discriminate Ha.
  - intros [= <-]. eauto.
  - intros [= <-]. eauto.
  - unfold UpdateRouteHandler_handle.
    destruct (Heap.spread (heap w) (params h)) as [safeParams hp]. simpl.
    destruct (resource h _); simpl; try (intros Ha; discriminate Ha).
    unfold issue. simpl.
    destruct (set _ _ (db w)) as [m s1]. simpl.
    destruct (save m _ _ s1) as [[r | e] s2]; simpl; intros [= <-]; eauto.
  - unfold DestroyRouteHandler_handle.
    destruct (resource h w); simpl; try (intros Ha; discriminate Ha).
    unfold issue.
    destruct (destroy _ _ (db w)) as [[d | e] s1]; simpl; intros [= <-]; eauto.
Qed.

End HandlerProperties.

(** ** The [name] getter *)

Lemma string_length_app (s1 s2 : string) :
  String.length (s1 ++ s2) = (String.length s1 + String.length s2)%nat.
Proof. induction s1 as [| a s1 IH]; simpl; [done | by rewrite IH]. Qed.

Lemma replace_suffix_app (suffix x : string) :
  replace_suffix suffix (x ++ suffix) = x.
Proof.
  induction x as [| a x IH].
  - change ("" ++ suffix)%string with suffix.
    destruct suffix; simpl; [done | by rewrite Ascii.eqb_refl, String.eqb_refl].
  - change (String a x ++ suffix)%string with (String a (x ++ suffix)).
    cbn [replace_suffix]. fold (replace_suffix suffix (x ++ suffix)).
    rewrite IH.
    assert (Hne : String a (x ++ suffix) ≠ suffix).
    { intros Heq. apply (f_equal String.length) in Heq. simpl in Heq.
      rewrite string_length_app in Heq. lia. }
    apply String.eqb_neq in Hne. by rewrite Hne.
Qed.

(** X14: a handler whose class is called [X ++ "RouteHandler"] is named
    [X] in lower case; only the suffix at the very end is removed. *)
Theorem name_strips_suffix (h : handler) (x : string) :
  constructor_name (cls h) = (x ++ "RouteHandler")%string →
  name h = toLowerCase x.
Proof. intros Hx. unfold name. by rewrite Hx, replace_suffix_app. Qed.

(** X15: the names tell the classes apart: two handlers with the same
    [name] are of the same class. *)
Theorem name_determines_class (h h' : handler) :
  name h = name h' → cls h = cls h'.
Proof.
  unfold name. destruct (cls h), (cls h'); vm_compute; intros Heq;
    first [reflexivity | discriminate Heq].
Qed.

(** ** The server *)

Section ServerProperties.

Variable logMsgTag : string.
Variable whiteBright : value → string.
Variable stringify : obj → string.

Local Abbreviation new_server := (Server.new logMsgTag whiteBright stringify).

Lemma server_new_inr (e : Server.env) (cfg : obj) (srv : Server.t) :
  new_server e cfg = inr srv →
  truthy (Server.prop cfg "dbUrl") = true
  ∧ srv = {| Server.app := Server.configureMiddleware [] (cfg ∪ Server.CONFIG_DEFAULTS e);
             Server.db := Server.prop cfg "dbUrl";
             Server.config := cfg ∪ Server.CONFIG_DEFAULTS e;
             Server.level := Server.prop (cfg ∪ Server.CONFIG_DEFAULTS e) "logLevel";
             Server.info :=
               [Server.tagMsg logMsgTag
                  (whiteBright (Server.prop (cfg ∪ Server.CONFIG_DEFAULTS e)
                                  "applicationName"))] |}.
Proof.
  unfold Server.new.
  destruct (truthy (Server.prop cfg "dbUrl")); simpl; [| intros Hs; discriminate Hs].
  by intros [= <-].
Qed.

(** X16: the constructor throws exactly when the configuration has no
    [dbUrl] or a falsy one (the empty string, [null], 0); the error names
    the configuration it was given. *)
Theorem server_requires_dbUrl (e : Server.env) (cfg : obj) :
  (truthy (Server.prop cfg "dbUrl") = false →
   new_server e cfg
   = inl (VError ("No dbUrl provided in " ++ stringify cfg)%string))
  ∧ (truthy (Server.prop cfg "dbUrl") = true →
     ∃ srv : Server.t,
       new_server e cfg = inr srv ∧ Server.db srv = Server.prop cfg "dbUrl")
  ∧ (cfg !! "dbUrl" = None → ∃ err : value, new_server e cfg = inl err).
Proof.
  unfold Server.new. split; [| split].
  - by intros ->.
  - intros ->. simpl. eauto.
  - intros Hnone. unfold Server.prop. rewrite Hnone. simpl. eauto.
Qed.

(** X17: in the configuration of a constructed server every key of the
    given configuration has the given value, also when that value is
    [undefined]; every other key has its default; and the five keys with
    a default are always present. *)
Theorem server_config_merge (e : Server.env) (cfg : obj) (srv : Server.t) :
  new_server e cfg = inr srv →
  (∀ (k : string) (v : value),
     cfg !! k = Some v → Server.config srv !! k = Some v)
  ∧ (∀ k : string,
       cfg !! k = None →
       Server.config srv !! k = Server.CONFIG_DEFAULTS e !! k)
  ∧ Forall (λ k : string, is_Some (Server.config srv !! k))
      ["port"; "applicationName"; "logBody"; "stackTrace500"; "logLevel"].
Proof.
  intros Hnew. destruct (server_new_inr _ _ _ Hnew) as [_ ->]. simpl.
  split; [| split].
  - intros k v Hk. by apply lookup_union_Some_l.
  - intros k Hk. by apply lookup_union_r.
  - assert (Hkey : ∀ k : string,
      is_Some (Server.CONFIG_DEFAULTS e !! k) →
      is_Some ((cfg ∪ Server.CONFIG_DEFAULTS e) !! k)).
    { intros k [v Hv]. rewrite lookup_union_is_Some. eauto. }
    repeat constructor; apply Hkey; unfold Server.CONFIG_DEFAULTS;
      by simplify_map_eq.
Qed.

(** X18: a constructed server has the five built-in middleware first, in
    the order request id, request context, logger, JSON body parser,
    compression; morgan-body follows exactly when [config.logBody] is
    truthy, and the error handler comes last exactly when
    [config.stackTrace500] is truthy. *)
Theorem server_middleware_order (e : Server.env) (cfg : obj) (srv : Server.t) :
  new_server e cfg = inr srv →
  Server.app srv =
    ([Server.RequestId; Server.RequestContext; Server.AttachLogger;
      Server.BodyParserJson; Server.Compression]
     ++ (if truthy (Server.prop (Server.config srv) "logBody")
         then [Server.MorganBody] else [])
     ++ (if truthy (Server.prop (Server.config srv) "stackTrace500")
         then [Server.ErrorHandler] else []))%list.
Proof.
  intros Hnew. destruct (server_new_inr _ _ _ Hnew) as [_ ->]. simpl.
  unfold Server.configureMiddleware. simpl.
  by destruct (truthy (Server.prop _ "logBody")),
              (truthy (Server.prop _ "stackTrace500")).
Qed.

(** X19: what the environment decides when the configuration is silent:
    in production the log level is [error] and neither morgan-body nor the
    error handler is installed, elsewhere the level is [debug] and both
    are; the port is the [PORT] variable when it is set and not empty,
    else 3000. *)
Theorem server_environment_defaults (e : Server.env) (cfg : obj) (srv : Server.t) :
  new_server e cfg = inr srv →
  (cfg !! "logLevel" = None →
   Server.level srv = VStr (if Server.isProd e then "error" else "debug"))
  ∧ (cfg !! "port" = None →
     Server.config srv !! "port"
     = Some (if truthy (Server.PORT e) then Server.PORT e else VNum 3000))
  ∧ (cfg !! "logBody" = None → cfg !! "stackTrace500" = None →
     Server.app srv =
       ([Server.RequestId; Server.RequestContext; Server.AttachLogger;
         Server.BodyParserJson; Server.Compression]
        ++ (if Server.isProd e then []
            else [Server.MorganBody; Server.ErrorHandler]))%list).
Proof.
  intros Hnew. destruct (server_new_inr _ _ _ Hnew) as [_ ->]. simpl.
  split; [| split].
  - intros Hk. unfold Server.prop. rewrite (lookup_union_r _ _ _ Hk).
    unfold Server.CONFIG_DEFAULTS. by simplify_map_eq.
  - intros Hk. rewrite (lookup_union_r _ _ _ Hk).
    unfold Server.CONFIG_DEFAULTS, Server.or_else. by simplify_map_eq.
  - intros Hbody Htrace. unfold Server.configureMiddleware, Server.prop.
    rewrite (lookup_union_r _ _ _ Hbody), (lookup_union_r _ _ _ Htrace).
    unfold Server.CONFIG_DEFAULTS. simplify_map_eq.
    by destruct (Server.isProd e).
Qed.

(** X20: middleware added with [use] after construction comes after
    everything the server has installed, in the order of the calls, and
    [use] changes nothing else of the server. *)
Theorem server_use_appends (srv : Server.t) (ms : list value) :
  Server.app (fold_left Server.use ms srv)
  = (Server.app srv ++ List.map Server.Custom ms)%list
  ∧ Server.config (fold_left Server.use ms srv) = Server.config srv
  ∧ Server.db (fold_left Server.use ms srv) = Server.db srv
  ∧ Server.level (fold_left Server.use ms srv) = Server.level srv.
Proof.
  revert srv. induction ms as [| m ms IH]; intros srv; simpl.
  - by rewrite app_nil_r.
  - destruct (IH (Server.use srv m)) as (Happ & Hconfig & Hdb & Hlevel).
    rewrite Happ, Hconfig, Hdb, Hlevel. simpl.
    by rewrite <- app_assoc.
Qed.

End ServerProperties.

(** ** The further properties on concrete requests *)

Lemma processParams_writes_only_resource_witness :
  Heap.get
    (heap (@processParams Requests.M (new ShowRouteHandler 1%positive Mem.sink)
             2%positive (Mem.request true {[ "id" := VNum 2 ]} Mem.two_rows)).2)
    2%positive "id"
  = Heap.get (heap (Mem.request true {[ "id" := VNum 2 ]} Mem.two_rows))
      2%positive "id".
Proof.
  apply (processParams_writes_only_resource (M := Requests.M)).
  left. discriminate.
Defined.

Lemma processParams_reads_only_id_witness :
  (@processParams Requests.M (new UpdateRouteHandler 1%positive Mem.sink)
     2%positive
     (@World Requests.M
        {[ 1%positive := ∅;
           2%positive := {[ "id" := VNum 1; "a" := VNum 9 ]};
           3%positive := {[ "id" := VNum 1; "b" := VNum 7 ]} ]}
        Mem.two_rows [] [])).2
  = (@processParams Requests.M (new UpdateRouteHandler 1%positive Mem.sink)
       3%positive
       (@World Requests.M
          {[ 1%positive := ∅;
             2%positive := {[ "id" := VNum 1; "a" := VNum 9 ]};
             3%positive := {[ "id" := VNum 1; "b" := VNum 7 ]} ]}
          Mem.two_rows [] [])).2.
Proof.
  apply (processParams_reads_only_id (M := Requests.M)).
  vm_compute. reflexivity.
Defined.

Lemma exists_processParams_text_count_witness :
  (@processParams Pg.model (new ExistsRouteHandler 1%positive Mem.sink)
     2%positive
     (@World Pg.model {[ 1%positive := ∅; 2%positive := {[ "id" := VNum 7 ]} ]}
        Mem.two_rows [] [])).1.1
  = Returns (Resolved (Resp (Res.ok VUndefined Mem.sink))).
Proof.
  apply (exists_processParams_text_count (M := Pg.model)
           (new ExistsRouteHandler 1%positive Mem.sink) 2%positive
           (@World Pg.model
              {[ 1%positive := ∅; 2%positive := {[ "id" := VNum 7 ]} ]}
              Mem.two_rows [] [])
           1%positive 1%positive
           (Mem.construct None Mem.two_rows).2
           (Mem.where_ 1%positive "id" (VNum 7)
              (Mem.construct None Mem.two_rows).2).2
           (Mem.where_ 1%positive "id" (VNum 7)
              (Mem.construct None Mem.two_rows).2).2
           "0");
    [vm_compute; reflexivity .. | discriminate].
Defined.

Lemma exists_processParams_count_rejected_witness :
  (@processParams Offline.model (new ExistsRouteHandler 1%positive Mem.sink)
     2%positive
     (@World Offline.model
        {[ 1%positive := ∅; 2%positive := {[ "id" := VNum 2 ]} ]}
        Mem.two_rows [] [])).1.1
  = Returns (Rejected Offline.refused).
Proof.
  apply (exists_processParams_count_rejected (M := Offline.model)
           (new ExistsRouteHandler 1%positive Mem.sink) 2%positive
           (@World Offline.model
              {[ 1%positive := ∅; 2%positive := {[ "id" := VNum 2 ]} ]}
              Mem.two_rows [] [])
           1%positive 1%positive
           (Mem.construct None Mem.two_rows).2
           (Mem.where_ 1%positive "id" (VNum 2)
              (Mem.construct None Mem.two_rows).2).2
           (Mem.where_ 1%positive "id" (VNum 2)
              (Mem.construct None Mem.two_rows).2).2
           Offline.refused);
    vm_compute; reflexivity.
Defined.

Lemma create_handle_save_rejected_witness :
  (@handle Offline.model Mem.urlFor
     {| cls := CreateRouteHandler; ctx := 1%positive; res := Mem.sink;
        params := Some 2%positive; _tx := VStr "tx" |}
     (@World Offline.model
        {[ 1%positive := ∅; 2%positive := {[ "a" := VNum 9 ]} ]}
        Mem.two_rows [] [])).1
  = Returns (Rejected Offline.refused).
Proof.
  rewrite (create_handle_save_rejected (M := Offline.model) Mem.urlFor
             {| cls := CreateRouteHandler; ctx := 1%positive; res := Mem.sink;
                params := Some 2%positive; _tx := VStr "tx" |}
             (@World Offline.model
                {[ 1%positive := ∅; 2%positive := {[ "a" := VNum 9 ]} ]}
                Mem.two_rows [] [])
             1%positive
             (Mem.construct (Some {[ "a" := VNum 9 ]}) Mem.two_rows).2
             (Mem.construct (Some {[ "a" := VNum 9 ]}) Mem.two_rows).2
             Offline.refused);
    [reflexivity | vm_compute; reflexivity ..].
Defined.

Lemma create_lifecycle_calls_witness :
  ∃ m : inst,
    calls (@handle Requests.M Mem.urlFor
             (Requests.prepared CreateRouteHandler Requests.create_params)
             (Requests.prepared_world CreateRouteHandler Requests.create_params)).2
    = [CallNew (Some Requests.create_params);
       CallSave m (Some ∅) Requests.options].
Proof.
  destruct (create_lifecycle_calls (M := Requests.M) Mem.urlFor
              (new CreateRouteHandler 1%positive Mem.sink) 2%positive
              (VStr "tx") (Mem.request true Requests.create_params Mem.two_rows)
              eq_refl) as [m Hcalls].
  exists m. exact Hcalls.
Defined.

Lemma show_lifecycle_body_witness :
  (@handle Requests.M Mem.urlFor
     (@processParams Requests.M (new ShowRouteHandler 1%positive Mem.sink)
        2%positive (Mem.request true {[ "id" := VNum 2 ]} Mem.two_rows)).1.2
     (@processParams Requests.M (new ShowRouteHandler 1%positive Mem.sink)
        2%positive (Mem.request true {[ "id" := VNum 2 ]} Mem.two_rows)).2).1
  = Returns (Resolved (Resp (Res.ok (VModel 1%positive) Mem.sink))).
Proof.
  rewrite (show_lifecycle_body (M := Requests.M) Mem.urlFor
             (new ShowRouteHandler 1%positive Mem.sink) 2%positive
             (Mem.request true {[ "id" := VNum 2 ]} Mem.two_rows)
             1%positive
             (Mem.construct (Some {[ "id" := VNum 2 ]}) Mem.two_rows).2
             (Mem.fetch true 1%positive
                (Mem.construct (Some {[ "id" := VNum 2 ]}) Mem.two_rows).2).2
             (VModel 1%positive));
    [reflexivity | vm_compute; reflexivity ..].
Defined.

Lemma handle_without_resource_throws_witness :
  (@handle (Mem.model false) Mem.urlFor
     (@processParams (Mem.model false)
        (new UpdateRouteHandler 1%positive Mem.sink) 2%positive
        (Mem.request false {[ "id" := VNum 7; "a" := VNum 9 ]} Mem.two_rows)).1.2
     (@processParams (Mem.model false)
        (new UpdateRouteHandler 1%positive Mem.sink) 2%positive
        (Mem.request false {[ "id" := VNum 7; "a" := VNum 9 ]} Mem.two_rows)).2).1
  = Throws VTypeError.
Proof.
  apply (handle_without_resource_throws (M := Mem.model false) Mem.urlFor).
  - left. reflexivity.
  - eexists. vm_compute. reflexivity.
  - intros i. vm_compute. discriminate.
Defined.

Lemma destroy_handle_destroys_witness :
  (@handle Requests.M Mem.urlFor
     (Requests.prepared DestroyRouteHandler {[ "id" := VNum 1 ]})
     (Requests.prepared_world DestroyRouteHandler {[ "id" := VNum 1 ]})).1
  = Returns (Resolved (Resp (Res.ok VUndefined Mem.sink)))
  ∧ Mem.table
      (db (@handle Requests.M Mem.urlFor
             (Requests.prepared DestroyRouteHandler {[ "id" := VNum 1 ]})
             (Requests.prepared_world DestroyRouteHandler {[ "id" := VNum 1 ]})).2)
    = [Mem.row 2 5 6].
Proof.
  rewrite (destroy_handle_destroys (M := Requests.M) Mem.urlFor
             (Requests.prepared DestroyRouteHandler {[ "id" := VNum 1 ]})
             (Requests.prepared_world DestroyRouteHandler {[ "id" := VNum 1 ]})
             1%positive (Resolved (VModel 1%positive))
             (Mem.destroy 1%positive Requests.options
                (db (Requests.prepared_world DestroyRouteHandler
                       {[ "id" := VNum 1 ]}))).2);
    [| vm_compute; reflexivity ..].
  split; vm_compute; reflexivity.
Defined.

Lemma handle_resolves_response_witness :
  ∃ r : response,
    Resp (Res.ok VUndefined Mem.sink) = Resp r ∧ status r = 200.
Proof.
  apply (handle_resolves_response (M := Requests.M) Mem.urlFor
           (new ExistsRouteHandler 1%positive Mem.sink)
           (Mem.request true ∅ Mem.two_rows)).
  reflexivity.
Defined.

Lemma name_strips_suffix_witness :
  name (new IndexRouteHandler 1%positive Mem.sink) = "index".
Proof.
  apply (name_strips_suffix (new IndexRouteHandler 1%positive Mem.sink) "Index").
  reflexivity.
Defined.

Lemma name_determines_class_witness :
  cls (new ShowRouteHandler 1%positive Mem.sink)
  = cls (useTransaction (new ShowRouteHandler 2%positive Mem.sink) (VStr "tx")).
Proof.
  apply (name_determines_class (new ShowRouteHandler 1%positive Mem.sink)).
  reflexivity.
Defined.

Lemma server_config_merge_witness :
  Server.config (Deployments.built (Deployments.construct Deployments.production))
    !! "dbUrl"
  = Some (VStr "postgres://localhost/things").
Proof.
  apply (server_config_merge "[crudtastic v1.0.0]" Deployments.plain (λ _, "{}")
           Deployments.production
           {[ "dbUrl" := VStr "postgres://localhost/things" ]}).
  - vm_compute. reflexivity.
  - vm_compute. reflexivity.
Defined.

Lemma server_middleware_order_witness :
  Server.app (Deployments.built (Deployments.construct Deployments.development))
  = [Server.RequestId; Server.RequestContext; Server.AttachLogger;
     Server.BodyParserJson; Server.Compression;
     Server.MorganBody; Server.ErrorHandler].
Proof.
  rewrite (server_middleware_order "[crudtastic v1.0.0]" Deployments.plain
             (λ _, "{}") Deployments.development
             {[ "dbUrl" := VStr "postgres://localhost/things" ]});
    vm_compute; reflexivity.
Defined.

Lemma server_environment_defaults_witness :
  Server.level (Deployments.built (Deployments.construct Deployments.production))
  = VStr "error".
Proof.
  apply (server_environment_defaults "[crudtastic v1.0.0]" Deployments.plain
           (λ _, "{}") Deployments.production
           {[ "dbUrl" := VStr "postgres://localhost/things" ]});
    vm_compute; reflexivity.
Defined.
